(** * QuickFix: the [api/generate.js] request handler

  A shallow embedding of the single serverless handler of the QuickFix
  repository, together with the JavaScript built-ins it relies on
  (truthiness, property reads, [String.prototype.replace],
  [String.prototype.trim], [Array.prototype.join], [JSON.parse]).

  - JavaScript strings are sequences of UTF-16 code units ([jsstring]).
  - JavaScript numbers are IEEE-754 binary64 values ([SpecFloat]).
  - JSON data (request bodies, query values, the parsed upstream answer,
    the response body handed to [res.json]) are terms of [value].
  - The handler's only suspension point, the upstream completion call, is
    a function of the host; the handler returns what it answered together
    with the list of prompts it sent upstream.
  - [console.error] output is not part of the model. *)

From Stdlib Require Import List Bool NArith ZArith String Ascii Lia.
From Stdlib Require Import Floats.SpecFloat.
Import ListNotations.

Set Warnings "-register-all".
Local Open Scope N_scope.

(* ------------------------------------------------------------------ *)
(** ** Strings *)

Module JsString.

(** A string is its sequence of 16-bit code units. *)
Definition jsstring := list N.

(** An ASCII source literal: every character of the Rocq literal is one
    code unit. *)
Definition js (s : string) : jsstring :=
  map N_of_ascii (list_ascii_of_string s).

(** A source literal that contains double quotes, written with the
    stand-in character [q] where the source has a double quote. *)
Definition quoted (q : ascii) (s : string) : jsstring :=
  map (fun a => if Ascii.eqb a q then 34 else N_of_ascii a)
      (list_ascii_of_string s).

Definition LF : jsstring := [10].

Fixpoint eqb (a b : jsstring) : bool :=
  match a, b with
  | [], [] => true
  | x :: a', y :: b' => N.eqb x y && eqb a' b'
  | _, _ => false
  end.

(** [a] starts [s]. *)
Fixpoint starts_with (a s : jsstring) : bool :=
  match a, s with
  | [], _ => true
  | x :: a', y :: s' => N.eqb x y && starts_with a' s'
  | _ :: _, [] => false
  end.

(** [s.replace(pat, by)] for a string pattern: only the first occurrence
    is replaced. *)
Fixpoint replace (pat by_ s : jsstring) : jsstring :=
  if starts_with pat s then by_ ++ skipn (List.length pat) s
  else match s with
       | [] => []
       | c :: s' => c :: replace pat by_ s'
       end.

(** [s.replace(/lit\n?/g, empty)] for a non-empty literal [lit]: every
    occurrence of [lit], with the line feed that may follow it, is deleted;
    the scan resumes after each match.  [skip] counts the code units of
    the current match still to drop, [nl] holds while a match is being
    dropped or has just ended, when one line feed is dropped with it. *)
Fixpoint delete_all_go (lit : jsstring) (skip : nat) (nl : bool)
         (s : jsstring) : jsstring :=
  match s with
  | [] => []
  | c :: s' =>
      match skip with
      | S k => delete_all_go lit k nl s'
      | O =>
          if nl && N.eqb c 10 then delete_all_go lit O false s'
          else if starts_with lit s
               then delete_all_go lit (List.length lit - 1) true s'
               else c :: delete_all_go lit O false s'
      end
  end.

Definition delete_all (lit : jsstring) (s : jsstring) : jsstring :=
  delete_all_go lit O false s.

(** WhiteSpace and LineTerminator code units, the ones [trim] removes. *)
Definition is_trim_space (c : N) : bool :=
  existsb (N.eqb c)
    [9; 10; 11; 12; 13; 32; 160; 5760; 8232; 8233; 8239; 8287; 12288; 65279]
  || (8192 <=? c) && (c <=? 8202).

Fixpoint trim_start (s : jsstring) : jsstring :=
  match s with
  | c :: s' => if is_trim_space c then trim_start s' else s
  | [] => []
  end.

Definition trim (s : jsstring) : jsstring :=
  rev (trim_start (rev (trim_start s))).

(** [parts.join(sep)] on strings. *)
Fixpoint join (sep : jsstring) (parts : list jsstring) : jsstring :=
  match parts with
  | [] => []
  | [p] => p
  | p :: rest => p ++ sep ++ join sep rest
  end.

End JsString.
Import JsString.

(* ------------------------------------------------------------------ *)
(** ** Numbers *)

Module JsNumber.

(** A Number is a binary64 value. *)
Definition number := spec_float.

Definition prec : Z := 53.
Definition emax : Z := 1024.

(** The Number nearest to [m * 10^e] (ties to even), negated when [neg]:
    the value of a decimal literal. *)
Definition of_decimal (neg : bool) (m : N) (e : Z) : number :=
  match m with
  | N0 => S754_zero neg
  | Npos p =>
      if (0 <=? e)%Z
      then binary_normalize prec emax
             (cond_Zopp neg (Zpos p * 10 ^ e)%Z) 0%Z neg
      else
        let '(q, e', l) :=
          SFdiv_core_binary prec emax (Zpos p) 0%Z (10 ^ (- e))%Z 0%Z in
        binary_round_aux prec emax neg q e' l
  end.

Definition of_nat (n : nat) : number :=
  binary_normalize prec emax (Z.of_nat n) 0%Z false.

(** ToBoolean on a Number: false for +0, -0 and NaN. *)
Definition truthy (n : number) : bool :=
  match n with
  | S754_zero _ | S754_nan => false
  | _ => true
  end.

End JsNumber.

(* ------------------------------------------------------------------ *)
(** ** Values, errors and the operations of the language *)

Module JsValue.

Import JsNumber.

(** The values the handler meets: JSON data and [undefined].  An object
    is the list of its own properties, each key once. *)
Inductive value :=
| VUndefined
| VNull
| VBool (b : bool)
| VNum (n : number)
| VStr (s : jsstring)
| VArr (elems : list value)
| VObj (props : list (jsstring * value)).

(** A thrown [Error]: the handler reads nothing but its [message]. *)
Record error := { error_name : jsstring; message : jsstring }.

Inductive completion (A : Type) :=
| Normal (a : A)
| Throw (e : error).
Arguments Normal {A} a.
Arguments Throw {A} e.

(** ToBoolean: what [!v], [v || w] and [if (v)] test. *)
Definition ToBoolean (v : value) : bool :=
  match v with
  | VUndefined | VNull => false
  | VBool b => b
  | VNum n => JsNumber.truthy n
  | VStr s => negb (JsString.eqb s [])
  | VArr _ | VObj _ => true
  end.

(** [a || b] *)
Definition or_else (a b : value) : value :=
  if ToBoolean a then a else b.

Definition of_option (o : option jsstring) : value :=
  match o with
  | Some s => VStr s
  | None => VUndefined
  end.

Fixpoint own {A : Type} (props : list (jsstring * A)) (k : jsstring)
  : option A :=
  match props with
  | [] => None
  | (k', v) :: rest => if JsString.eqb k' k then Some v else own rest k
  end.

(** Define or overwrite the own property [k]; a key already there keeps
    its place. *)
Fixpoint put (k : jsstring) (v : value) (props : list (jsstring * value))
  : list (jsstring * value) :=
  match props with
  | [] => [(k, v)]
  | (k', v') :: rest =>
      if JsString.eqb k' k then (k', v) :: rest
      else (k', v') :: put k v rest
  end.

Definition is_digit (c : N) : bool := (48 <=? c) && (c <=? 57).

Fixpoint digits_value (acc : N) (s : jsstring) : option N :=
  match s with
  | [] => Some acc
  | c :: s' =>
      if is_digit c then digits_value (10 * acc + (c - 48)) s' else None
  end.

(** The array index a property key denotes, if it is one: decimal digits
    with no leading zero. *)
Definition array_index (k : jsstring) : option nat :=
  match k with
  | [] => None
  | [48] => Some O
  | 48 :: _ => None
  | _ => option_map N.to_nat (digits_value 0 k)
  end.

Definition length_key : jsstring := js "length".

Definition cannot_read (what k : jsstring) : error :=
  {| error_name := js "TypeError";
     message := js "Cannot read properties of " ++ what
                ++ js " (reading '" ++ k ++ js "')" |}.

(** [v[k]] and [v.k], for keys that no built-in prototype defines (every
    key the handler reads is one, or is [length]). *)
Definition Get (v : value) (k : jsstring) : completion value :=
  match v with
  | VUndefined => Throw (cannot_read (js "undefined") k)
  | VNull => Throw (cannot_read (js "null") k)
  | VBool _ | VNum _ => Normal VUndefined
  | VStr s =>
      if JsString.eqb k length_key then Normal (VNum (of_nat (List.length s)))
      else match array_index k with
           | Some i => Normal (match nth_error s i with
                               | Some c => VStr [c]
                               | None => VUndefined
                               end)
           | None => Normal VUndefined
           end
  | VArr l =>
      if JsString.eqb k length_key then Normal (VNum (of_nat (List.length l)))
      else match array_index k with
           | Some i => Normal (match nth_error l i with
                               | Some x => x
                               | None => VUndefined
                               end)
           | None => Normal VUndefined
           end
  | VObj props =>
      Normal (match own props k with Some x => x | None => VUndefined end)
  end.

(** [v?.k] *)
Definition GetOptional (v : value) (k : jsstring) : completion value :=
  match v with
  | VUndefined | VNull => Normal VUndefined
  | _ => Get v k
  end.

Definition Array_isArray (v : value) : bool :=
  match v with
  | VArr _ => true
  | _ => false
  end.

(** [a === b].  Two containers are equal only when they are the same
    object; the handler never compares an object with itself, so they
    count as different. *)
Definition strict_equal (a b : value) : bool :=
  match a, b with
  | VUndefined, VUndefined | VNull, VNull => true
  | VBool x, VBool y => Bool.eqb x y
  | VNum x, VNum y => SFeqb x y
  | VStr x, VStr y => JsString.eqb x y
  | _, _ => false
  end.

Definition bind {A B : Type} (c : completion A) (k : A -> completion B)
  : completion B :=
  match c with
  | Normal a => k a
  | Throw e => Throw e
  end.

Notation "'let*' x ':=' c 'in' k" := (bind c (fun x => k))
  (at level 10, x name, c at level 100, k at level 200).

Section ToString.

(** Number::toString, a built-in of the host. *)
Variable Number_toString : number -> jsstring.

Definition not_primitive : error :=
  {| error_name := js "TypeError";
     message := js "Cannot convert object to primitive value" |}.

(** ToString, as a template literal applies it.  An array is joined
    with commas, [null] and [undefined] elements giving the empty
    string; a plain object gives [[object Object]] unless it has an own
    [toString] property, which is never callable in JSON data. *)
Fixpoint ToString (v : value) : completion jsstring :=
  match v with
  | VUndefined => Normal (js "undefined")
  | VNull => Normal (js "null")
  | VBool true => Normal (js "true")
  | VBool false => Normal (js "false")
  | VNum n => Normal (Number_toString n)
  | VStr s => Normal s
  | VArr l =>
      (fix elems (first : bool) (l : list value) : completion jsstring :=
         match l with
         | [] => Normal []
         | x :: rest =>
             let part :=
               match x with
               | VUndefined | VNull => Normal []
               | _ => ToString x
               end in
             match part with
             | Throw e => Throw e
             | Normal p =>
                 match elems false rest with
                 | Throw e => Throw e
                 | Normal r =>
                     Normal ((if first then [] else js ",") ++ p ++ r)
                 end
             end
         end) true l
  | VObj props =>
      match own props (js "toString") with
      | Some _ => Throw not_primitive
      | None => Normal (js "[object Object]")
      end
  end.

End ToString.

(** Object literal with source-literal keys. *)
Definition obj (fields : list (string * value)) : value :=
  VObj (map (fun kv => (js (fst kv), snd kv)) fields).

Definition str (s : string) : value := VStr (js s).

(** [v] is an object with an own property [k]. *)
Definition has_own (v : value) (k : string) : bool :=
  match v with
  | VObj props =>
      match own props (js k) with Some _ => true | None => false end
  | _ => false
  end.

(** Read along a path of keys; [VUndefined] where a read would throw. *)
Fixpoint at_path (v : value) (path : list string) : value :=
  match path with
  | [] => v
  | k :: rest =>
      match Get v (js k) with
      | Normal x => at_path x rest
      | Throw _ => VUndefined
      end
  end.

End JsValue.
Import JsValue.

(* ------------------------------------------------------------------ *)
(** ** [JSON.parse] *)

Module Json.

Import JsNumber.

(** *** Tokens

    One pass over the code units.  A maximal run of code units that are
    neither JSON white space, nor punctuation, nor a quote is a [TWord]:
    in a JSON text it must be a number or one of the three literals. *)

Inductive token :=
| TLBrace | TRBrace | TLBracket | TRBracket | TColon | TComma
| TStr (s : jsstring)
| TWord (w : jsstring).

Inductive lex_state :=
| LIdle
| LWord (w : jsstring)                   (* reversed *)
| LStr (acc : jsstring)                  (* reversed *)
| LEsc (acc : jsstring)
| LHex (acc : jsstring) (todo : nat) (code : N).

Definition is_ws (c : N) : bool :=
  N.eqb c 9 || N.eqb c 10 || N.eqb c 13 || N.eqb c 32.

Definition punct (c : N) : option token :=
  if N.eqb c 123 then Some TLBrace
  else if N.eqb c 125 then Some TRBrace
  else if N.eqb c 91 then Some TLBracket
  else if N.eqb c 93 then Some TRBracket
  else if N.eqb c 58 then Some TColon
  else if N.eqb c 44 then Some TComma
  else None.

Definition hex_digit (c : N) : option N :=
  if (48 <=? c) && (c <=? 57) then Some (c - 48)
  else if (65 <=? c) && (c <=? 70) then Some (c - 55)
  else if (97 <=? c) && (c <=? 102) then Some (c - 87)
  else None.

(** The code unit an escape letter stands for. *)
Definition escape (c : N) : option N :=
  if N.eqb c 34 then Some 34          (* quote *)
  else if N.eqb c 92 then Some 92     (* backslash *)
  else if N.eqb c 47 then Some 47     (* slash *)
  else if N.eqb c 98 then Some 8      (* b: backspace *)
  else if N.eqb c 102 then Some 12    (* f: form feed *)
  else if N.eqb c 110 then Some 10    (* n: line feed *)
  else if N.eqb c 114 then Some 13    (* r: carriage return *)
  else if N.eqb c 116 then Some 9     (* t: tab *)
  else None.

(** Tokens already read are kept most recent first. *)
Definition flush (st : lex_state) (toks : list token) : list token :=
  match st with
  | LWord w => TWord (rev w) :: toks
  | _ => toks
  end.

Fixpoint lex (st : lex_state) (toks : list token) (s : jsstring)
  : option (list token) :=
  match s with
  | [] =>
      match st with
      | LIdle | LWord _ => Some (rev (flush st toks))
      | _ => None
      end
  | c :: s' =>
      match st with
      | LIdle | LWord _ =>
          if is_ws c then lex LIdle (flush st toks) s'
          else match punct c with
               | Some t => lex LIdle (t :: flush st toks) s'
               | None =>
                   if N.eqb c 34 then lex (LStr []) (flush st toks) s'
                   else match st with
                        | LWord w => lex (LWord (c :: w)) toks s'
                        | _ => lex (LWord [c]) toks s'
                        end
               end
      | LStr acc =>
          if N.eqb c 34 then lex LIdle (TStr (rev acc) :: toks) s'
          else if N.eqb c 92 then lex (LEsc acc) toks s'
          else if c <? 32 then None
          else lex (LStr (c :: acc)) toks s'
      | LEsc acc =>
          if N.eqb c 117 then lex (LHex acc 4 0) toks s'
          else match escape c with
               | Some u => lex (LStr (u :: acc)) toks s'
               | None => None
               end
      | LHex acc todo code =>
          match hex_digit c with
          | None => None
          | Some d =>
              let code' := 16 * code + d in
              match todo with
              | S (S k) => lex (LHex acc (S k) code') toks s'
              | _ => lex (LStr (code' :: acc)) toks s'
              end
          end
      end
  end.

(** *** Numbers: [-? int frac? exp?] *)

Fixpoint span_digits (s : jsstring) : jsstring * jsstring :=
  match s with
  | c :: s' =>
      if is_digit c
      then let '(ds, rest) := span_digits s' in (c :: ds, rest)
      else ([], s)
  | [] => ([], [])
  end.

Definition digits_N (ds : jsstring) : N :=
  fold_left (fun acc c => 10 * acc + (c - 48)) ds 0.

Definition number_of_word (w : jsstring) : option number :=
  let '(neg, w1) :=
    match w with
    | 45 :: r => (true, r)
    | _ => (false, w)
    end in
  let '(int, w2) := span_digits w1 in
  let int_ok :=
    match int with
    | [] => false
    | [_] => true
    | 48 :: _ => false
    | _ => true
    end in
  let '(frac, w3, frac_ok) :=
    match w2 with
    | 46 :: r =>
        let '(ds, rest) := span_digits r in
        (ds, rest, negb (JsString.eqb ds []))
    | _ => ([], w2, true)
    end in
  let '(exp, exp_ok) :=
    match w3 with
    | [] => (0%Z, true)
    | c :: r =>
        if N.eqb c 101 || N.eqb c 69 then
          let '(eneg, r1) :=
            match r with
            | 45 :: r' => (true, r')
            | 43 :: r' => (false, r')
            | _ => (false, r)
            end in
          let '(ds, rest) := span_digits r1 in
          (cond_Zopp eneg (Z.of_N (digits_N ds)),
           negb (JsString.eqb ds []) && JsString.eqb rest [])
        else (0%Z, false)
    end in
  if int_ok && frac_ok && exp_ok
  then Some (of_decimal neg (digits_N (int ++ frac))
               (exp - Z.of_nat (List.length frac))%Z)
  else None.

Definition scalar_of_word (w : jsstring) : option value :=
  if JsString.eqb w (js "true") then Some (VBool true)
  else if JsString.eqb w (js "false") then Some (VBool false)
  else if JsString.eqb w (js "null") then Some VNull
  else option_map VNum (number_of_word w).

(** *** Structure

    A push-down pass over the tokens.  A [frame] is a container that is
    waiting for the value being read; [mode] says what may come next. *)

Inductive frame :=
| FArr (done : list value)                            (* reversed *)
| FObj (done : list (jsstring * value)) (key : jsstring).

Inductive mode :=
| MValue
| MArrOpen
| MObjOpen
| MKey (done : list (jsstring * value))
| MColon (done : list (jsstring * value)) (key : jsstring)
| MAfterElem (done : list value)
| MAfterMember (done : list (jsstring * value))
| MDone (v : value).

Definition deliver (v : value) (stack : list frame) : mode * list frame :=
  match stack with
  | [] => (MDone v, [])
  | FArr done :: up => (MAfterElem (v :: done), up)
  | FObj done k :: up => (MAfterMember (put k v done), up)
  end.

Definition start_value (t : token) (stack : list frame)
  : option (mode * list frame) :=
  match t with
  | TLBracket => Some (MArrOpen, stack)
  | TLBrace => Some (MObjOpen, stack)
  | TStr s => Some (deliver (VStr s) stack)
  | TWord w =>
      match scalar_of_word w with
      | Some v => Some (deliver v stack)
      | None => None
      end
  | _ => None
  end.

Definition step (m : mode) (stack : list frame) (t : token)
  : option (mode * list frame) :=
  match m, t with
  | MValue, _ => start_value t stack
  | MArrOpen, TRBracket => Some (deliver (VArr []) stack)
  | MArrOpen, _ => start_value t (FArr [] :: stack)
  | MObjOpen, TRBrace => Some (deliver (VObj []) stack)
  | MObjOpen, TStr k => Some (MColon [] k, stack)
  | MKey done, TStr k => Some (MColon done k, stack)
  | MColon done k, TColon => Some (MValue, FObj done k :: stack)
  | MAfterElem done, TComma => Some (MValue, FArr done :: stack)
  | MAfterElem done, TRBracket => Some (deliver (VArr (rev done)) stack)
  | MAfterMember done, TComma => Some (MKey done, stack)
  | MAfterMember done, TRBrace => Some (deliver (VObj done) stack)
  | _, _ => None
  end.

Fixpoint run (m : mode) (stack : list frame) (toks : list token)
  : option value :=
  match toks with
  | [] => match m with MDone v => Some v | _ => None end
  | t :: rest =>
      match step m stack t with
      | Some (m', stack') => run m' stack' rest
      | None => None
      end
  end.

(** [JSON.parse(text)] with no reviver; [None] is a thrown
    [SyntaxError]. *)
Definition parse (text : jsstring) : option value :=
  match lex LIdle [] text with
  | Some toks => run MValue [] toks
  | None => None
  end.

End Json.

(* ------------------------------------------------------------------ *)
(** ** The handler *)

Module QuickFix.

Import JsNumber.
Local Open Scope string_scope.
Local Open Scope list_scope.

(** *** The process, the host and the request *)

(** [process.env]: a variable is a string or is not set. *)
Record config := {
  GEMINI_API_KEY : option jsstring;
  API_KEY : option jsstring
}.

(** What [response.text()] and [response.promptFeedback] give after
    [model.generateContent(fullPrompt)]. *)
Record generation := {
  text : jsstring;
  promptFeedback : value
}.

(** What the handler takes from its surroundings: the clock
    ([new Date().toISOString()]), the number formatting of the engine
    and the upstream completion call, which throws when the call, the
    awaited response or [text()] does. *)
Record host := {
  now : jsstring;
  Number_toString : number -> jsstring;
  generateContent : jsstring -> completion generation
}.

(** [req]: header names are lower case, a query value is a string or an
    array of strings, the body is whatever the platform parsed. *)
Record request := {
  method : jsstring;
  headers : list (jsstring * jsstring);
  query : list (jsstring * value);
  body : value
}.

(** [res.status(status).json(json)] *)
Record response := {
  status : Z;
  json : value
}.

(** One invocation: how it completed, and the prompts it sent upstream,
    oldest first. *)
Record run := {
  outcome : completion response;
  sent : list jsstring
}.

Definition header (req : request) (name : string) : value :=
  of_option (own (headers req) (js name)).

Definition param (req : request) (name : string) : value :=
  match own (query req) (js name) with
  | Some v => v
  | None => VUndefined
  end.

(** *** Constants *)

Definition MODEL_ID : jsstring := js "gemini-2.5-flash-preview-05-20".

(** The lines of the template literal of lines 8-51; where a line has
    double quotes it is written with a backquote for each. *)
Definition SYSTEM_PROMPT : jsstring :=
  join LF
  [js "You are QuickFix, a helpful assistant that provides straightforward, step-by-step instructions for everyday tasks and questions.";
   [];
   js "You must respond with a JSON object in the following format:";
   js "{";
   quoted "`" "  `title`: `Brief title describing the task`,";
   quoted "`" "  `summary`: `One sentence summary of what this accomplishes`,";
   quoted "`" "  `steps`: [";
   quoted "`" "    `Step 1 description`,";
   quoted "`" "    `Step 2 description`,";
   quoted "`" "    `Step 3 description`";
   js "  ],";
   quoted "`" "  `tips`: [`Optional helpful tip 1`, `Optional helpful tip 2`],";
   quoted "`" "  `timeEstimate`: `Estimated time to complete (e.g., '5 minutes', '30 seconds')`,";
   quoted "`" "  `difficulty`: `easy|medium|hard`";
   js "}";
   [];
   js "Guidelines:";
   js "- Keep steps concise and actionable";
   js "- Use plain, friendly language";
   js "- Include 2-8 steps typically";
   js "- Tips are optional but helpful";
   js "- Always provide realistic time estimates";
   js "- Set difficulty appropriately";
   [];
   js "Example:";
   js "User: How can I make pasta?";
   js "Response:";
   js "{";
   quoted "`" "  `title`: `Cook Basic Pasta`,";
   quoted "`" "  `summary`: `Boil pasta in salted water until tender`,";
   quoted "`" "  `steps`: [";
   quoted "`" "    `Fill a large pot with water and bring to a rolling boil`,";
   quoted "`" "    `Add 1-2 tablespoons of salt to the boiling water`,";
   quoted "`" "    `Add pasta and stir occasionally to prevent sticking`,";
   quoted "`" "    `Cook for 8-12 minutes (check package directions)`,";
   quoted "`" "    `Drain pasta in a colander and serve immediately`";
   js "  ],";
   quoted "`" "  `tips`: [";
   quoted "`" "    `Use about 4-6 quarts of water per pound of pasta`,";
   quoted "`" "    `Save some pasta water before draining - it's great for sauce`";
   js "  ],";
   quoted "`" "  `timeEstimate`: `15 minutes`,";
   quoted "`" "  `difficulty`: `easy`";
   js "}"].

(** [genAI] is set when [GEMINI_API_KEY] is truthy. *)
Definition genAI (cfg : config) : value :=
  if ToBoolean (of_option (GEMINI_API_KEY cfg)) then VObj [] else VUndefined.

Definition requiredFields : list jsstring :=
  [js "title"; js "summary"; js "steps"].

(** *** Lines 142-219: from the upstream text to the response *)

(** Lines 146-149: both global replacements by the empty string, the
    one of [/```json\n?/g] first, then the one of [/```\n?/g], then
    [trim()]. *)
Definition cleanText (text : jsstring) : jsstring :=
  trim (delete_all (js "```") (delete_all (js "```json") text)).

(** [requiredFields.filter((field) => !parsedResponse[field])] *)
Fixpoint missing_among (fields : list jsstring) (parsedResponse : value)
  : completion (list jsstring) :=
  match fields with
  | [] => Normal []
  | field :: rest =>
      let* v := Get parsedResponse field in
      let* others := missing_among rest parsedResponse in
      Normal (if negb (ToBoolean v) then field :: others else others)
  end.

Definition metadata (h : host) (extra : string) (v : value) : value :=
  obj [("timestamp", VStr (now h)); ("model", VStr MODEL_ID); (extra, v)].

Definition parse_failure_response (h : host) (text : jsstring) : response :=
  {| status := 200;
     json := obj [
       ("success", VBool true);
       ("data", obj [
          ("title", str "QuickFix Response");
          ("summary", str "Generated response");
          ("content", VStr text);
          ("steps", VArr []);
          ("tips", VArr []);
          ("timeEstimate", str "Unknown");
          ("difficulty", str "unknown")]);
       ("metadata",
        metadata h "parseError" (str "Response was not valid JSON"))] |}.

Definition missing_fields_response (h : host) (text : jsstring)
           (parsedResponse : value) (missingFields : list jsstring)
  : completion response :=
  let* title := Get parsedResponse (js "title") in
  let* summary := Get parsedResponse (js "summary") in
  let* steps := Get parsedResponse (js "steps") in
  let* tips := Get parsedResponse (js "tips") in
  let* timeEstimate := Get parsedResponse (js "timeEstimate") in
  let* difficulty := Get parsedResponse (js "difficulty") in
  Normal
    {| status := 200;
       json := obj [
         ("success", VBool true);
         ("data", obj [
            ("title", or_else title (str "QuickFix Response"));
            ("summary", or_else summary (str "Generated response"));
            ("steps", if Array_isArray steps then steps else VArr []);
            ("tips", if Array_isArray tips then tips else VArr []);
            ("timeEstimate", or_else timeEstimate (str "Unknown"));
            ("difficulty", or_else difficulty (str "unknown"));
            ("content", VStr text)]);
         ("metadata",
          metadata h "warning"
            (VStr (js "Missing fields: "
                   ++ join (js ", ") missingFields)))] |}.

Definition structured_response (h : host) (parsedResponse : value)
  : completion response :=
  let* title := Get parsedResponse (js "title") in
  let* summary := Get parsedResponse (js "summary") in
  let* steps := Get parsedResponse (js "steps") in
  let* tips := Get parsedResponse (js "tips") in
  let* timeEstimate := Get parsedResponse (js "timeEstimate") in
  let* difficulty := Get parsedResponse (js "difficulty") in
  let* stepCount := GetOptional steps (js "length") in
  Normal
    {| status := 200;
       json := obj [
         ("success", VBool true);
         ("data", obj [
            ("title", title);
            ("summary", summary);
            ("steps", steps);
            ("tips", or_else tips (VArr []));
            ("timeEstimate", or_else timeEstimate (str "Unknown"));
            ("difficulty", or_else difficulty (str "unknown"))]);
         ("metadata",
          metadata h "stepCount"
            (or_else stepCount (VNum (of_nat 0))))] |}.

(** Lines 175-219: the validation of the required fields. *)
Definition validate_and_respond (h : host) (text : jsstring)
           (parsedResponse : value) : completion response :=
  let* missingFields := missing_among requiredFields parsedResponse in
  if (0 <? List.length missingFields)%nat
  then missing_fields_response h text parsedResponse missingFields
  else structured_response h parsedResponse.

(** Lines 143-173: the inner [try]/[catch] around [JSON.parse]. *)
Definition parse_and_respond (h : host) (text : jsstring)
  : completion response :=
  match Json.parse (cleanText text) with
  | None => Normal (parse_failure_response h text)
  | Some parsedResponse => validate_and_respond h text parsedResponse
  end.

(** *** Lines 134-140: the content-policy exit *)

Definition blocked_response (reason : value) : response :=
  {| status := 400;
     json := obj [
       ("success", VBool false);
       ("error", str "Content generation blocked");
       ("reason", reason)] |}.

(** [!text && response.promptFeedback?.blockReason] *)
Definition blocked (g : generation) : completion bool :=
  if ToBoolean (VStr (text g)) then Normal false
  else
    let* blockReason := GetOptional (promptFeedback g) (js "blockReason") in
    Normal (ToBoolean blockReason).

Definition after_generation (h : host) (g : generation)
  : completion response :=
  let* stop := blocked g in
  if stop
  then
    let* reason := Get (promptFeedback g) (js "blockReason") in
    Normal (blocked_response reason)
  else parse_and_respond h (text g).

(** *** Lines 114-132: composition and invocation *)

Definition fullPrompt (userText : jsstring) : jsstring :=
  SYSTEM_PROMPT ++ LF ++ LF ++ js "User: " ++ userText ++ LF
  ++ js "Response:".

(** The body of the outer [try]: its completion and the prompts sent. *)
Definition try_generate (h : host) (userPrompt : value)
  : completion response * list jsstring :=
  match ToString (Number_toString h) userPrompt with
  | Throw e => (Throw e, [])
  | Normal userText =>
      (let* g := generateContent h (fullPrompt userText) in
       after_generation h g,
       [fullPrompt userText])
  end.

Definition failure_response (e : error) : response :=
  {| status := 500;
     json := obj [
       ("success", VBool false);
       ("error", str "Failed to generate response");
       ("details", VStr (message e))] |}.

(** The outer [catch]. *)
Definition caught (c : completion response) : response :=
  match c with
  | Normal r => r
  | Throw e => failure_response e
  end.

(** Lines 114-227: the outer [try]/[catch]. *)
Definition generate (h : host) (userPrompt : value) : run :=
  let '(c, prompts) := try_generate h userPrompt in
  {| outcome := Normal (caught c); sent := prompts |}.

(** *** Lines 58-112: the checks before the [try] *)

Definition answer (st : Z) (b : value) : run :=
  {| outcome := Normal {| status := st; json := b |}; sent := [] |}.

Definition unauthorized_body : value :=
  obj [
    ("error", str "API key is required.");
    ("methods", obj [
       ("POST", str "Provide in 'x-api-key' header or 'Authorization: Bearer <key>' header");
       ("GET", str "Provide in 'api_key' query parameter, 'x-api-key' header, or 'Authorization: Bearer <key>' header")])].

Definition prompt_required_body : value :=
  obj [
    ("error", str "Prompt is required.");
    ("usage", obj [
       ("POST", str "Include 'prompt' in request body JSON");
       ("GET", str "Include 'prompt' or 'q' as query parameter")])].

(** Line 69: the [authorization] header, if there is one, with its first
    ["Bearer "] replaced by the empty string. *)
Definition bearer (req : request) : value :=
  match own (headers req) (js "authorization") with
  | Some a => VStr (JsString.replace (js "Bearer ") [] a)
  | None => VUndefined
  end.

Definition providedApiKey (req : request) : value :=
  or_else (or_else (header req "x-api-key") (bearer req))
          (param req "api_key").

(** Lines 97-102. *)
Definition userPrompt (req : request) : completion value :=
  if JsString.eqb (method req) (js "POST")
  then Get (body req) (js "prompt")
  else if JsString.eqb (method req) (js "GET")
       then Normal (or_else (param req "prompt") (param req "q"))
       else Normal VUndefined.

Definition handler (cfg : config) (h : host) (req : request) : run :=
  if negb (JsString.eqb (method req) (js "POST"))
     && negb (JsString.eqb (method req) (js "GET"))
  then answer 405 (obj [("error", str "Method not allowed. Use GET or POST.")])
  else if negb (ToBoolean (of_option (API_KEY cfg)))
  then answer 500 (obj [("error", str "API_KEY is not configured on server.")])
  else if negb (ToBoolean (providedApiKey req))
  then answer 401 unauthorized_body
  else if negb (strict_equal (providedApiKey req) (of_option (API_KEY cfg)))
  then answer 403 (obj [("error", str "Invalid API key.")])
  else if negb (ToBoolean (of_option (GEMINI_API_KEY cfg)))
          || negb (ToBoolean (genAI cfg))
  then answer 500 (obj [("error", str "GEMINI_API_KEY is not configured.")])
  else
    match userPrompt req with
    | Throw e => {| outcome := Throw e; sent := [] |}
    | Normal p =>
        if negb (ToBoolean p)
        then answer 400 prompt_required_body
        else generate h p
    end.

End QuickFix.

(* ------------------------------------------------------------------ *)
(** ** The vocabulary of the statements, and sample inputs *)

Module Spec.

Import JsNumber QuickFix.
Local Open Scope string_scope.
Local Open Scope list_scope.

(** The required fields whose value in [v] is absent or falsy, in the
    order of [requiredFields]. *)
Definition falsy_required (v : value) : list jsstring :=
  map js (filter (fun k => negb (ToBoolean (at_path v [k])))
                 ["title"; "summary"; "steps"]).

(** The request passes lines 58-94: an accepted method, both keys
    configured, and the credential read from the request is the
    configured one. *)
Definition passes_checks (cfg : config) (req : request) : Prop :=
  (method req = js "POST" \/ method req = js "GET") /\
  (exists key, API_KEY cfg = Some key /\ key <> []
               /\ providedApiKey req = VStr key) /\
  (exists key, GEMINI_API_KEY cfg = Some key /\ key <> []).

(** The request passes the checks, its prompt [p] is truthy, and the
    upstream call made for it returns [g]. *)
Definition upstream_returns (cfg : config) (h : host) (req : request)
           (g : generation) : Prop :=
  passes_checks cfg req /\
  exists p u,
    userPrompt req = Normal p /\ ToBoolean p = true /\
    ToString (Number_toString h) p = Normal u /\
    generateContent h (fullPrompt u) = Normal g.

(** The block reason the upstream reports, [undefined] when it reports
    none. *)
Definition block_reason (g : generation) : value :=
  at_path (promptFeedback g) ["blockReason"].

Definition sample_config : config :=
  {| GEMINI_API_KEY := Some (js "upstream-key");
     API_KEY := Some (js "secret") |}.

Definition sample_host (up : completion generation) : host :=
  {| now := js "2025-06-01T12:00:00.000Z";
     Number_toString := fun _ => js "0";
     generateContent := fun _ => up |}.

Definition returns_text (t : jsstring) : completion generation :=
  Normal {| text := t; promptFeedback := VUndefined |}.

Definition sample_post (prompt : value) : request :=
  {| method := js "POST";
     headers := [(js "x-api-key", js "secret")];
     query := [];
     body := obj [("prompt", prompt)] |}.

Definition not_json : jsstring := js "not json at all".

(** The answer of the fifth claim: a [json] fence around an object with
    the three required fields. *)
Definition fenced_answer : jsstring :=
  js "```json" ++ LF
  ++ quoted "'" "{'title':'T','summary':'S','steps':['a','b']}" ++ LF
  ++ js "```".

Definition fenced_object : value :=
  obj [("title", str "T"); ("summary", str "S");
       ("steps", VArr [str "a"; str "b"])].

Definition blocked_generation : generation :=
  {| text := [];
     promptFeedback := obj [("blockReason", str "SAFETY")] |}.

Definition upstream_down : error :=
  {| error_name := js "Error"; message := js "fetch failed" |}.

(** The answer to a request without a prompt: status 400, the usage
    guidance, and nothing sent upstream. *)
Definition prompt_rejected (r : run) : Prop :=
  sent r = [] /\
  exists resp,
    outcome r = Normal resp /\
    status resp = 400%Z /\
    at_path (json resp) ["error"] = str "Prompt is required." /\
    at_path (json resp) ["usage"; "POST"]
    = str "Include 'prompt' in request body JSON" /\
    at_path (json resp) ["usage"; "GET"]
    = str "Include 'prompt' or 'q' as query parameter".

Definition absent_or_empty (v : value) : Prop :=
  v = VUndefined \/ v = VStr [].

(** Nothing on any of the three channels the handler reads. *)
Definition no_credential (req : request) : Prop :=
  own (headers req) (js "x-api-key") = None /\
  own (headers req) (js "authorization") = None /\
  own (query req) (js "api_key") = None.

Definition bare_get : request :=
  {| method := js "GET"; headers := [];
     query := [(js "q", str "How can I make pasta?")];
     body := VUndefined |}.

Definition wrong_key_post : request :=
  {| method := js "POST";
     headers := [(js "authorization", js "Bearer guess")];
     query := [];
     body := obj [("prompt", str "How can I make pasta?")] |}.

Definition query_key_post : request :=
  {| method := js "POST";
     headers := [];
     query := [(js "api_key", str "secret")];
     body := obj [("prompt", str "How can I make pasta?")] |}.

(** An answer with the three required fields, whose [steps] and [tips]
    are strings. *)
Definition string_steps_answer : jsstring :=
  quoted "'"
    "{'title':'T','summary':'S','steps':'boil water','tips':'add salt'}".

(** Two field values the validation cannot tell apart: the same value,
    or two falsy ones. *)
Definition alike (a b : value) : Prop :=
  a = b \/ (ToBoolean a = false /\ ToBoolean b = false).

Definition answer_fields : list string :=
  ["title"; "summary"; "steps"; "tips"; "timeEstimate"; "difficulty"].

(** The default the handler names for each field of the answer. *)
Definition field_default (k : string) : value :=
  if String.eqb k "title" then str "QuickFix Response"
  else if String.eqb k "summary" then str "Generated response"
  else if String.eqb k "steps" then VArr []
  else if String.eqb k "tips" then VArr []
  else if String.eqb k "timeEstimate" then str "Unknown"
  else if String.eqb k "difficulty" then str "unknown"
  else VUndefined.

(** The fourth claim in its own words, where a field is present when
    the parsed object has its key: for a parsed object that lacks a
    required key, the answer is 200, every present field is used as it
    is, every absent one has its default, the raw text is [content] and
    the warning lists the absent required keys. *)
Definition C4_as_stated (cfg : config) (h : host) (req : request)
           (g : generation) : Prop :=
  upstream_returns cfg h req g ->
  forall props,
    Json.parse (cleanText (text g)) = Some (VObj props) ->
    (exists k, In k ["title"; "summary"; "steps"]
               /\ own props (js k) = None) ->
    exists r,
      outcome (handler cfg h req) = Normal r /\
      status r = 200%Z /\
      (forall k, In k answer_fields ->
                 at_path (json r) ["data"; k]
                 = match own props (js k) with
                   | Some x => x
                   | None => field_default k
                   end) /\
      at_path (json r) ["data"; "content"] = VStr (text g) /\
      at_path (json r) ["metadata"; "warning"]
      = VStr (js "Missing fields: "
              ++ join (js ", ")
                   (map js
                      (filter (fun k => negb (has_own (VObj props) k))
                              ["title"; "summary"; "steps"]))).

(** An answer without [summary] whose [steps] is a string. *)
Definition no_summary_string_steps : jsstring :=
  quoted "'" "{'title':'T','steps':'boil water'}".

(** The answer of the fourth testable property: no [summary]. *)
Definition no_summary_answer : jsstring :=
  quoted "'" "{'title':'T','steps':['a']}".

(** The object without its property [k]. *)
Definition without (k : jsstring) (props : list (jsstring * value))
  : list (jsstring * value) :=
  filter (fun kv => negb (JsString.eqb (fst kv) k)) props.

(** An answer whose [title] is the empty string. *)
Definition empty_title_answer : jsstring :=
  quoted "'" "{'title':'','summary':'S','steps':['a']}".

(** *** Vocabulary of the further properties *)

(** The six answers that do not depend on the upstream. *)
Definition fixed_responses : list response :=
  [ {| status := 405;
       json := obj [("error", str "Method not allowed. Use GET or POST.")] |};
    {| status := 500;
       json := obj [("error", str "API_KEY is not configured on server.")] |};
    {| status := 401; json := unauthorized_body |};
    {| status := 403; json := obj [("error", str "Invalid API key.")] |};
    {| status := 500;
       json := obj [("error", str "GEMINI_API_KEY is not configured.")] |};
    {| status := 400; json := prompt_required_body |} ].

(** Where an answer of the handler comes from. *)
Inductive produced (h : host) (r : response) : Prop :=
| produced_fixed : In r fixed_responses -> produced h r
| produced_failure (e : error) : r = failure_response e -> produced h r
| produced_blocked (reason : value) :
    ToBoolean reason = true -> r = blocked_response reason -> produced h r
| produced_unparsed (t : jsstring) :
    Json.parse (cleanText t) = None ->
    r = parse_failure_response h t -> produced h r
| produced_fallback (t : jsstring) (v : value) :
    v <> VUndefined -> v <> VNull -> falsy_required v <> [] ->
    missing_fields_response h t v (falsy_required v) = Normal r ->
    produced h r
| produced_structured (v : value) :
    v <> VUndefined -> v <> VNull -> falsy_required v = [] ->
    structured_response h v = Normal r -> produced h r.

(** A parsed value that is neither an object nor [null]. *)
Definition not_an_object (v : value) : Prop :=
  match v with
  | VBool _ | VNum _ | VStr _ | VArr _ => True
  | _ => False
  end.

(** The extra keys of [metadata] that an answer carries. *)
Definition metadata_extras (r : response) : list string :=
  filter (has_own (at_path (json r) ["metadata"]))
         ["parseError"; "warning"; "stepCount"].

(** [lit] occurs in [s]. *)
Fixpoint occurs (lit s : jsstring) : bool :=
  starts_with lit s
  || match s with
     | [] => false
     | _ :: s' => occurs lit s'
     end.

(** [b] neither starts nor ends with a code unit that [trim] removes. *)
Definition tight (b : jsstring) : Prop :=
  trim_start b = b /\ trim_start (rev b) = rev b.

(** [b] has no backquote. *)
Definition no_backquote (b : jsstring) : Prop := Forall (fun c => c <> 96) b.

(** The answer of a run that completed. *)
Definition answer_of (r : run) : response :=
  match outcome r with
  | Normal x => x
  | Throw _ => {| status := 0; json := VUndefined |}
  end.

(** A complete answer with every field, whose [difficulty] is none of the
    three the prompt asks for. *)
Definition complete_answer : jsstring :=
  quoted "'"
    "{'title':'T','summary':'S','steps':['a','b','c'],'tips':['t'],'timeEstimate':'1 minute','difficulty':'extreme'}".

Definition bearer_get : request :=
  {| method := js "GET";
     headers := [(js "x-api-key", []);
                 (js "authorization", js "Bearer secret")];
     query := [(js "prompt", str "How can I make pasta?");
               (js "q", str "ignored")];
     body := VUndefined |}.

Definition shadowed_post : request :=
  {| method := js "POST";
     headers := [(js "x-api-key", js "guess");
                 (js "authorization", js "Bearer secret")];
     query := [(js "api_key", str "secret")];
     body := obj [("prompt", str "How can I make pasta?")] |}.

Definition post_without_body : request :=
  {| method := js "POST";
     headers := [(js "x-api-key", js "secret")];
     query := [];
     body := VUndefined |}.


(** The run of the sample POST when the upstream returns
    [complete_answer]. *)
Definition served_run : run :=
  handler sample_config (sample_host (returns_text complete_answer))
          (sample_post (str "How can I make pasta?")).

(** A prompt that cannot be made a string: an object with an own
    [toString] property. *)
Definition unprintable_prompt : value := obj [("toString", VBool true)].

Definition bare_object : jsstring := quoted "'" "{'a':1}".

End Spec.

(* ------------------------------------------------------------------ *)
(** ** Properties of the handler *)

Module Properties.

Import JsNumber QuickFix Spec.
Local Open Scope string_scope.
Local Open Scope list_scope.

(** *** Strings *)

Lemma str_eqb_refl (a : jsstring) : JsString.eqb a a = true.
Proof.
  induction a as [|x a IH]; simpl; [reflexivity|].
  now rewrite N.eqb_refl, IH.
Qed.

Lemma str_eqb_eq (a b : jsstring) : JsString.eqb a b = true <-> a = b.
Proof.
  split; [|intros ->; apply str_eqb_refl].
  revert b; induction a as [|x a IH]; destruct b as [|y b]; simpl;
    try discriminate; [reflexivity|].
  intros H. apply andb_true_iff in H as [Hx Hr].
  apply N.eqb_eq in Hx. now rewrite Hx, (IH _ Hr).
Qed.

Lemma str_eqb_neq (a b : jsstring) : JsString.eqb a b = false <-> a <> b.
Proof.
  split.
  - intros H E. apply str_eqb_eq in E. congruence.
  - intros H. destruct (JsString.eqb a b) eqn:E; [|reflexivity].
    apply str_eqb_eq in E. contradiction.
Qed.

(** *** Reading the values *)

Lemma ToBoolean_str (s : jsstring) : ToBoolean (VStr s) = true <-> s <> [].
Proof.
  simpl. destruct s as [|c s]; simpl; split; intros H;
    try discriminate; try reflexivity.
  now elim H.
Qed.

Lemma ToBoolean_str_false (s : jsstring) :
  ToBoolean (VStr s) = false <-> s = [].
Proof.
  destruct s as [|c s]; simpl; split; intros H;
    try discriminate; reflexivity.
Qed.

(** A read throws on [undefined] and [null] only. *)
Lemma Get_defined (v : value) (k : string) :
  v <> VUndefined -> v <> VNull -> Get v (js k) = Normal (at_path v [k]).
Proof.
  intros Hu Hn. unfold at_path.
  destruct v; try contradiction; simpl; try reflexivity.
  - destruct (JsString.eqb (js k) length_key); [reflexivity|].
    destruct (array_index (js k)); reflexivity.
  - destruct (JsString.eqb (js k) length_key); [reflexivity|].
    destruct (array_index (js k)); reflexivity.
Qed.

Lemma Get_object (props : list (jsstring * value)) (k : string) :
  Get (VObj props) (js k) = Normal (at_path (VObj props) [k]).
Proof. apply Get_defined; discriminate. Qed.

Lemma GetOptional_total (v : value) (k : string) :
  GetOptional v (js k) = Normal (at_path v [k]).
Proof.
  destruct v; try reflexivity; apply Get_defined; discriminate.
Qed.

(** *** The required fields *)

Lemma missing_among_defined (v : value) :
  v <> VUndefined -> v <> VNull ->
  missing_among requiredFields v = Normal (falsy_required v).
Proof.
  intros Hu Hn. unfold requiredFields, falsy_required.
  cbn [missing_among].
  rewrite (Get_defined v "title"), (Get_defined v "summary"),
    (Get_defined v "steps") by assumption.
  cbn [bind filter].
  destruct (ToBoolean (at_path v ["title"]));
    destruct (ToBoolean (at_path v ["summary"]));
    destruct (ToBoolean (at_path v ["steps"])); reflexivity.
Qed.

(** *** Reaching the upstream call *)

Lemma method_accepted (req : request) :
  method req = js "POST" \/ method req = js "GET" ->
  negb (JsString.eqb (method req) (js "POST"))
  && negb (JsString.eqb (method req) (js "GET")) = false.
Proof. intros [-> | ->]; reflexivity. Qed.

Lemma handler_checked (cfg : config) (h : host) (req : request) :
  passes_checks cfg req ->
  handler cfg h req =
  match userPrompt req with
  | Throw e => {| outcome := Throw e; sent := [] |}
  | Normal p =>
      if negb (ToBoolean p) then answer 400 prompt_required_body
      else generate h p
  end.
Proof.
  intros (Hm & (key & Hk & Hne & Hp) & (gk & Hg & Hgne)).
  unfold handler. rewrite (method_accepted _ Hm).
  rewrite Hk, Hp, Hg. unfold genAI. rewrite Hg.
  cbn [of_option strict_equal].
  apply ToBoolean_str in Hne, Hgne. rewrite Hne, Hgne.
  rewrite str_eqb_refl. reflexivity.
Qed.

Lemma generate_returns (h : host) (p : value) (u : jsstring)
      (g : generation) :
  ToString (Number_toString h) p = Normal u ->
  generateContent h (fullPrompt u) = Normal g ->
  generate h p = {| outcome := Normal (caught (after_generation h g));
                    sent := [fullPrompt u] |}.
Proof.
  intros Hu Hg. unfold generate, try_generate. now rewrite Hu, Hg.
Qed.

Lemma handler_upstream_returns (cfg : config) (h : host) (req : request)
      (g : generation) :
  upstream_returns cfg h req g ->
  exists u,
    handler cfg h req =
    {| outcome := Normal (caught (after_generation h g));
       sent := [fullPrompt u] |}.
Proof.
  intros (Hc & p & u & Hp & Ht & Hu & Hg). exists u.
  rewrite (handler_checked _ _ _ Hc), Hp, Ht. cbn [negb].
  now apply generate_returns.
Qed.

(** *** From the upstream text to the response *)

Lemma parse_nonempty (text : jsstring) (v : value) :
  Json.parse (cleanText text) = Some v -> text <> [].
Proof. intros H ->. discriminate H. Qed.

Lemma not_blocked_nonempty (g : generation) :
  text g <> [] -> blocked g = Normal false.
Proof.
  intros H. unfold blocked. apply ToBoolean_str in H. now rewrite H.
Qed.

Lemma after_generation_parses (h : host) (g : generation) :
  blocked g = Normal false ->
  after_generation h g = parse_and_respond h (text g).
Proof. intros H. unfold after_generation. now rewrite H. Qed.

Lemma after_generation_parsed (h : host) (g : generation) (v : value) :
  Json.parse (cleanText (text g)) = Some v ->
  after_generation h g = validate_and_respond h (text g) v.
Proof.
  intros H.
  rewrite after_generation_parses
    by (eapply not_blocked_nonempty, parse_nonempty, H).
  unfold parse_and_respond. now rewrite H.
Qed.

(** *** The statuses after the upstream call *)

Ltac read_fields :=
  repeat match goal with
         | |- context [bind (Get ?v ?k) _] =>
             destruct (Get v k); cbn [bind]; try discriminate
         | |- context [bind (GetOptional ?v ?k) _] =>
             destruct (GetOptional v k); cbn [bind]; try discriminate
         end.

Lemma missing_fields_response_status
      (h : host) (t : jsstring) (v : value) (m : list jsstring)
      (r : response) :
  missing_fields_response h t v m = Normal r -> status r = 200%Z.
Proof.
  unfold missing_fields_response. read_fields.
  intros H. injection H as <-. reflexivity.
Qed.

Lemma structured_response_status (h : host) (v : value) (r : response) :
  structured_response h v = Normal r -> status r = 200%Z.
Proof.
  unfold structured_response. read_fields.
  intros H. injection H as <-. reflexivity.
Qed.

Lemma validate_and_respond_status
      (h : host) (t : jsstring) (v : value) (r : response) :
  validate_and_respond h t v = Normal r -> status r = 200%Z.
Proof.
  unfold validate_and_respond.
  destruct (missing_among requiredFields v) as [m|e]; cbn [bind];
    [|discriminate].
  destruct (0 <? List.length m)%nat.
  - apply missing_fields_response_status.
  - apply structured_response_status.
Qed.

Lemma parse_and_respond_status (h : host) (t : jsstring) (r : response) :
  parse_and_respond h t = Normal r -> status r = 200%Z.
Proof.
  unfold parse_and_respond. destruct (Json.parse (cleanText t)).
  - apply validate_and_respond_status.
  - intros H. injection H as <-. reflexivity.
Qed.

Lemma blocked_spec (g : generation) :
  blocked g =
  Normal (JsString.eqb (text g) [] && ToBoolean (block_reason g)).
Proof.
  unfold blocked, block_reason.
  rewrite GetOptional_total. cbn [bind ToBoolean].
  destruct (JsString.eqb (text g) []); reflexivity.
Qed.

Lemma after_generation_spec (h : host) (g : generation) :
  after_generation h g =
  if JsString.eqb (text g) [] && ToBoolean (block_reason g)
  then Normal (blocked_response (block_reason g))
  else parse_and_respond h (text g).
Proof.
  unfold after_generation. rewrite blocked_spec. cbn [bind].
  destruct (JsString.eqb (text g) [] && ToBoolean (block_reason g)) eqn:E;
    [|reflexivity].
  apply andb_true_iff in E as [_ E]. unfold block_reason in *.
  rewrite Get_defined; [reflexivity| |]; intros Hp; rewrite Hp in E;
    discriminate E.
Qed.

Lemma caught_parse_status (h : host) (t : jsstring) :
  status (caught (parse_and_respond h t)) = 200%Z
  \/ status (caught (parse_and_respond h t)) = 500%Z.
Proof.
  destruct (parse_and_respond h t) as [r|e] eqn:E; cbn [caught].
  - left. now apply parse_and_respond_status in E.
  - right. reflexivity.
Qed.

Lemma after_generation_status (h : host) (g : generation) (r : response) :
  after_generation h g = Normal r -> status r = 200%Z \/ status r = 400%Z.
Proof.
  rewrite after_generation_spec.
  destruct (JsString.eqb (text g) [] && ToBoolean (block_reason g)).
  - intros H. injection H as <-. right. reflexivity.
  - intros H. left. now apply parse_and_respond_status in H.
Qed.

Lemma try_generate_status (h : host) (p : value) (r : response)
      (prompts : list jsstring) :
  try_generate h p = (Normal r, prompts) ->
  status r = 200%Z \/ status r = 400%Z.
Proof.
  unfold try_generate.
  destruct (ToString (Number_toString h) p) as [u|e]; [|discriminate].
  destruct (generateContent h (fullPrompt u)) as [g|e]; cbn [bind];
    [|discriminate].
  intros H. injection H as H _. now apply after_generation_status in H.
Qed.

Lemma generate_status (h : host) (p : value) (r : response) :
  outcome (generate h p) = Normal r ->
  status r = 200%Z \/ status r = 400%Z \/ status r = 500%Z.
Proof.
  unfold generate. destruct (try_generate h p) as [c prompts] eqn:E.
  cbn [outcome]. intros H. injection H as <-.
  destruct c as [r|e]; cbn [caught].
  - apply try_generate_status in E. tauto.
  - right. right. reflexivity.
Qed.

(** *** The paths through the checks *)

Lemma method_accepted_inv (req : request) :
  negb (JsString.eqb (method req) (js "POST"))
  && negb (JsString.eqb (method req) (js "GET")) = false ->
  method req = js "POST" \/ method req = js "GET".
Proof.
  intros H. apply andb_false_iff in H as [H | H];
    apply negb_false_iff, str_eqb_eq in H; auto.
Qed.

Lemma configured_inv (o : option jsstring) :
  ToBoolean (of_option o) = true -> exists key, o = Some key /\ key <> [].
Proof.
  destruct o as [key|]; [|discriminate].
  intros H. exists key. split; [reflexivity|]. now apply ToBoolean_str.
Qed.

Lemma strict_equal_string (v : value) (key : jsstring) :
  strict_equal v (VStr key) = true <-> v = VStr key.
Proof.
  split; [|intros ->; apply str_eqb_refl].
  destruct v; try discriminate. cbn [strict_equal].
  intros H. apply str_eqb_eq in H. now subst.
Qed.

(** Every invocation takes one of eight paths. *)
Lemma handler_cases (cfg : config) (h : host) (req : request) :
  (~ (method req = js "POST" \/ method req = js "GET") /\
   handler cfg h req
   = answer 405 (obj [("error", str "Method not allowed. Use GET or POST.")]))
  \/ (ToBoolean (of_option (API_KEY cfg)) = false /\
      handler cfg h req
      = answer 500 (obj [("error", str "API_KEY is not configured on server.")]))
  \/ (ToBoolean (providedApiKey req) = false /\
      handler cfg h req = answer 401 unauthorized_body)
  \/ (ToBoolean (providedApiKey req) = true /\
      strict_equal (providedApiKey req) (of_option (API_KEY cfg)) = false /\
      handler cfg h req = answer 403 (obj [("error", str "Invalid API key.")]))
  \/ (ToBoolean (of_option (GEMINI_API_KEY cfg)) = false /\
      handler cfg h req
      = answer 500 (obj [("error", str "GEMINI_API_KEY is not configured.")]))
  \/ (passes_checks cfg req /\
      exists e, userPrompt req = Throw e /\
                handler cfg h req = {| outcome := Throw e; sent := [] |})
  \/ (passes_checks cfg req /\
      exists p, userPrompt req = Normal p /\ ToBoolean p = false /\
                handler cfg h req = answer 400 prompt_required_body)
  \/ (passes_checks cfg req /\
      exists p, userPrompt req = Normal p /\ ToBoolean p = true /\
                handler cfg h req = generate h p).
Proof.
  unfold handler.
  destruct (negb (JsString.eqb (method req) (js "POST"))
            && negb (JsString.eqb (method req) (js "GET"))) eqn:Em.
  { left. split; [|reflexivity]. intros H.
    apply method_accepted in H. congruence. }
  right. apply method_accepted_inv in Em.
  destruct (ToBoolean (of_option (API_KEY cfg))) eqn:Ek; cbn [negb];
    [|left; split; reflexivity].
  right.
  destruct (ToBoolean (providedApiKey req)) eqn:Ep; cbn [negb];
    [|left; split; reflexivity].
  right.
  destruct (strict_equal (providedApiKey req) (of_option (API_KEY cfg)))
    eqn:Es; cbn [negb]; [|left; repeat split].
  right. unfold genAI.
  destruct (ToBoolean (of_option (GEMINI_API_KEY cfg))) eqn:Eg;
    cbn [negb orb ToBoolean]; [|left; split; reflexivity].
  right.
  assert (Hc : passes_checks cfg req).
  { split; [exact Em|]. split.
    - destruct (configured_inv _ Ek) as (key & Hk & Hne).
      exists key. repeat split; try assumption.
      rewrite Hk in Es. now apply strict_equal_string in Es.
    - now apply configured_inv. }
  destruct (userPrompt req) as [p|e].
  - destruct (ToBoolean p) eqn:Et; cbn [negb].
    + right. right. split; [exact Hc|]. now exists p.
    + right. left. split; [exact Hc|]. now exists p.
  - left. split; [exact Hc|]. now exists e.
Qed.

(** *** Sample inputs *)

Lemma sample_post_passes (prompt : value) :
  passes_checks sample_config (sample_post prompt).
Proof.
  split; [left; reflexivity|]. split.
  - exists (js "secret"). repeat split. discriminate.
  - exists (js "upstream-key"). split; [reflexivity | discriminate].
Defined.

Lemma sample_post_returns (g : generation) :
  upstream_returns sample_config (sample_host (Normal g))
                   (sample_post (str "How can I make pasta?")) g.
Proof.
  split; [apply sample_post_passes|].
  exists (str "How can I make pasta?"), (js "How can I make pasta?").
  repeat split.
Defined.

(** *** Parse failure *)

(** C3.  When the request passes the checks with a truthy prompt, the
    upstream returns a text, the handler reaches the parsing step (the
    text is not empty or no block reason is reported) and [JSON.parse] of
    the cleaned text throws, the handler answers 200 with
    [success: true], the placeholder title and summary, empty [steps] and
    [tips], [timeEstimate] "Unknown", [difficulty] "unknown", the raw
    text as [content] and [metadata.parseError] set. *)
Theorem C3_unparseable_text_is_degraded_success
        (cfg : config) (h : host) (req : request) (g : generation) :
  upstream_returns cfg h req g ->
  text g <> [] \/ ToBoolean (block_reason g) = false ->
  Json.parse (cleanText (text g)) = None ->
  exists r,
    outcome (handler cfg h req) = Normal r /\
    status r = 200%Z /\
    at_path (json r) ["success"] = VBool true /\
    at_path (json r) ["data"; "title"] = str "QuickFix Response" /\
    at_path (json r) ["data"; "summary"] = str "Generated response" /\
    at_path (json r) ["data"; "steps"] = VArr [] /\
    at_path (json r) ["data"; "tips"] = VArr [] /\
    at_path (json r) ["data"; "timeEstimate"] = str "Unknown" /\
    at_path (json r) ["data"; "difficulty"] = str "unknown" /\
    at_path (json r) ["data"; "content"] = VStr (text g) /\
    at_path (json r) ["metadata"; "parseError"]
    = str "Response was not valid JSON".
Proof.
  intros Hup Hreach Hparse.
  destruct (handler_upstream_returns _ _ _ _ Hup) as [u ->].
  assert (Hb : blocked g = Normal false).
  { rewrite blocked_spec. destruct Hreach as [Ht | Hr].
    - apply str_eqb_neq in Ht. now rewrite Ht.
    - rewrite Hr. now rewrite andb_false_r. }
  rewrite (after_generation_parses _ _ Hb).
  unfold parse_and_respond. rewrite Hparse.
  eexists. split; [reflexivity|].
  repeat split.
Qed.

Lemma C3_witness :
  Json.parse (cleanText not_json) = None /\
  exists r,
    outcome (handler sample_config (sample_host (returns_text not_json))
                     (sample_post (str "How can I make pasta?")))
    = Normal r /\
    status r = 200%Z /\
    at_path (json r) ["success"] = VBool true /\
    at_path (json r) ["data"; "title"] = str "QuickFix Response" /\
    at_path (json r) ["data"; "summary"] = str "Generated response" /\
    at_path (json r) ["data"; "steps"] = VArr [] /\
    at_path (json r) ["data"; "tips"] = VArr [] /\
    at_path (json r) ["data"; "timeEstimate"] = str "Unknown" /\
    at_path (json r) ["data"; "difficulty"] = str "unknown" /\
    at_path (json r) ["data"; "content"] = VStr not_json /\
    at_path (json r) ["metadata"; "parseError"]
    = str "Response was not valid JSON".
Proof.
  split; [reflexivity|].
  apply (C3_unparseable_text_is_degraded_success
           sample_config (sample_host (returns_text not_json))
           (sample_post (str "How can I make pasta?"))
           {| text := not_json; promptFeedback := VUndefined |}).
  - apply sample_post_returns.
  - left. discriminate.
  - reflexivity.
Defined.

(** *** The fenced answer *)

(** C5.  For the upstream text made of a [json] fence around
    [{"title":"T","summary":"S","steps":["a","b"]}], the fence markers
    are stripped, the cleaned text parses, no required field is missing,
    and the handler answers 200 with [success: true],
    [data.steps = ["a","b"]], [data.tips = []],
    [data.timeEstimate = "Unknown"] and [data.difficulty = "unknown"]
    (and no [warning] or [parseError] in the metadata). *)
Theorem C5_fenced_answer_is_structured_success
        (cfg : config) (h : host) (req : request) (g : generation) :
  upstream_returns cfg h req g ->
  text g = fenced_answer ->
  cleanText (text g)
  = quoted "'" "{'title':'T','summary':'S','steps':['a','b']}" /\
  Json.parse (cleanText (text g)) = Some fenced_object /\
  missing_among requiredFields fenced_object = Normal [] /\
  exists r,
    outcome (handler cfg h req) = Normal r /\
    status r = 200%Z /\
    at_path (json r) ["success"] = VBool true /\
    at_path (json r) ["data"; "title"] = str "T" /\
    at_path (json r) ["data"; "summary"] = str "S" /\
    at_path (json r) ["data"; "steps"] = VArr [str "a"; str "b"] /\
    at_path (json r) ["data"; "tips"] = VArr [] /\
    at_path (json r) ["data"; "timeEstimate"] = str "Unknown" /\
    at_path (json r) ["data"; "difficulty"] = str "unknown" /\
    at_path (json r) ["metadata"; "stepCount"] = VNum (of_nat 2) /\
    at_path (json r) ["metadata"; "warning"] = VUndefined /\
    at_path (json r) ["metadata"; "parseError"] = VUndefined.
Proof.
  intros Hup Htext.
  assert (Hparse : Json.parse (cleanText (text g)) = Some fenced_object)
    by (rewrite Htext; reflexivity).
  split; [rewrite Htext; reflexivity|].
  split; [exact Hparse|].
  split; [reflexivity|].
  destruct (handler_upstream_returns _ _ _ _ Hup) as [u ->].
  rewrite (after_generation_parsed _ _ _ Hparse).
  eexists. split; [reflexivity|].
  repeat split.
Qed.

Lemma C5_witness :
  exists r,
    outcome (handler sample_config
                     (sample_host (returns_text fenced_answer))
                     (sample_post (str "How can I make pasta?")))
    = Normal r /\
    status r = 200%Z /\
    at_path (json r) ["data"; "steps"] = VArr [str "a"; str "b"] /\
    at_path (json r) ["data"; "tips"] = VArr [].
Proof.
  destruct (C5_fenced_answer_is_structured_success
              sample_config (sample_host (returns_text fenced_answer))
              (sample_post (str "How can I make pasta?"))
              {| text := fenced_answer; promptFeedback := VUndefined |})
    as (_ & _ & _ & r & Hr & Hs & _ & _ & _ & Hsteps & Htips & _).
  - apply sample_post_returns.
  - reflexivity.
  - exists r. repeat split; assumption.
Defined.

(** *** The content-policy exit *)

(** C7.  When the upstream call returns, the handler leaves before
    parsing, with status 400, [success: false] and the reported reason,
    exactly when the text is empty and a block reason is reported; when
    the text is not empty or no block reason is reported it goes on to
    parse the text. *)
Theorem C7_block_exit_iff_empty_text_and_reason
        (cfg : config) (h : host) (req : request) (g : generation) :
  upstream_returns cfg h req g ->
  (text g = [] /\ ToBoolean (block_reason g) = true ->
   exists r,
     outcome (handler cfg h req) = Normal r /\
     status r = 400%Z /\
     at_path (json r) ["success"] = VBool false /\
     at_path (json r) ["error"] = str "Content generation blocked" /\
     at_path (json r) ["reason"] = block_reason g) /\
  (text g <> [] \/ ToBoolean (block_reason g) = false ->
   outcome (handler cfg h req)
   = Normal (caught (parse_and_respond h (text g)))) /\
  (forall r,
      outcome (handler cfg h req) = Normal r ->
      status r = 400%Z <->
      text g = [] /\ ToBoolean (block_reason g) = true).
Proof.
  intros Hup.
  destruct (handler_upstream_returns _ _ _ _ Hup) as [u ->].
  cbn [outcome]. rewrite after_generation_spec.
  destruct (JsString.eqb (text g) []) eqn:Et;
    [apply str_eqb_eq in Et | apply str_eqb_neq in Et];
    (destruct (ToBoolean (block_reason g)) eqn:Er); cbn [andb].
  - split; [|split].
    + intros _. eexists. split; [reflexivity|]. repeat split.
    + intros [H | H]; [contradiction | discriminate].
    + intros r H. injection H as <-. cbn [caught]. split; [now split|].
      reflexivity.
  - split; [|split].
    + intros [_ H]; discriminate.
    + reflexivity.
    + intros r H. injection H as <-. split; [|intros [_ H]; discriminate].
      intros H. destruct (caught_parse_status h (text g)) as [S | S];
        rewrite S in H; discriminate.
  - split; [|split].
    + intros [H _]; contradiction.
    + reflexivity.
    + intros r H. injection H as <-. split; [|intros [H _]; contradiction].
      intros H. destruct (caught_parse_status h (text g)) as [S | S];
        rewrite S in H; discriminate.
  - split; [|split].
    + intros [H _]; contradiction.
    + reflexivity.
    + intros r H. injection H as <-. split; [|intros [H _]; contradiction].
      intros H. destruct (caught_parse_status h (text g)) as [S | S];
        rewrite S in H; discriminate.
Qed.

Lemma C7_witness :
  exists r,
    outcome (handler sample_config (sample_host (Normal blocked_generation))
                     (sample_post (str "How can I make pasta?")))
    = Normal r /\
    status r = 400%Z /\
    at_path (json r) ["success"] = VBool false /\
    at_path (json r) ["error"] = str "Content generation blocked" /\
    at_path (json r) ["reason"] = str "SAFETY".
Proof.
  apply (C7_block_exit_iff_empty_text_and_reason
           sample_config (sample_host (Normal blocked_generation))
           (sample_post (str "How can I make pasta?")) blocked_generation).
  - apply sample_post_returns.
  - split; reflexivity.
Defined.

(** *** The exception handler *)

(** C6.  When the body of the outer [try] throws (as it does when the
    upstream call throws), the handler answers 500 with
    [success: false], the error "Failed to generate response" and the
    message of what was thrown as [details], and no [data]; and an answer
    with status 500 and [success: false] comes from nowhere else. *)
Theorem C6_exception_handler_is_the_only_fatal_path
        (cfg : config) (h : host) (req : request) :
  (forall p e prompts,
      passes_checks cfg req ->
      userPrompt req = Normal p -> ToBoolean p = true ->
      try_generate h p = (Throw e, prompts) ->
      exists r,
        outcome (handler cfg h req) = Normal r /\
        status r = 500%Z /\
        at_path (json r) ["success"] = VBool false /\
        at_path (json r) ["error"] = str "Failed to generate response" /\
        at_path (json r) ["details"] = VStr (message e) /\
        has_own (json r) "data" = false) /\
  (forall p u e,
      ToString (Number_toString h) p = Normal u ->
      generateContent h (fullPrompt u) = Throw e ->
      try_generate h p = (Throw e, [fullPrompt u])) /\
  (forall r,
      outcome (handler cfg h req) = Normal r ->
      status r = 500%Z ->
      at_path (json r) ["success"] = VBool false ->
      exists p e prompts,
        passes_checks cfg req /\
        userPrompt req = Normal p /\ ToBoolean p = true /\
        try_generate h p = (Throw e, prompts) /\
        r = failure_response e).
Proof.
  split; [|split].
  - intros p e prompts Hc Hp Ht Hg.
    rewrite (handler_checked _ _ _ Hc), Hp, Ht. cbn [negb].
    unfold generate. rewrite Hg. cbn [outcome caught].
    eexists. split; [reflexivity|]. repeat split.
  - intros p u e Hu Hg. unfold try_generate. now rewrite Hu, Hg.
  - intros r Hr Hs Hf.
    destruct (handler_cases cfg h req)
      as [[_ E] | [[_ E] | [[_ E] | [(_ & _ & E) | [[_ E] |
          [(_ & e & _ & E) | [(_ & p & _ & _ & E) |
           (Hc & p & Hp & Ht & E)]]]]]]];
      rewrite E in Hr; try (injection Hr as <-; discriminate);
      try discriminate.
    unfold generate in Hr.
    destruct (try_generate h p) as [c prompts] eqn:Eg.
    cbn [outcome] in Hr. injection Hr as <-.
    destruct c as [r|e]; cbn [caught] in *.
    + apply try_generate_status in Eg. destruct Eg as [S | S];
        rewrite S in Hs; discriminate.
    + exists p, e, prompts. split; [exact Hc|].
      repeat split; assumption.
Qed.

Lemma C6_witness :
  exists r,
    outcome (handler sample_config (sample_host (Throw upstream_down))
                     (sample_post (str "How can I make pasta?")))
    = Normal r /\
    status r = 500%Z /\
    at_path (json r) ["success"] = VBool false /\
    at_path (json r) ["error"] = str "Failed to generate response" /\
    at_path (json r) ["details"] = str "fetch failed" /\
    has_own (json r) "data" = false.
Proof.
  destruct (C6_exception_handler_is_the_only_fatal_path
              sample_config (sample_host (Throw upstream_down))
              (sample_post (str "How can I make pasta?"))) as [H _].
  apply (H (str "How can I make pasta?") upstream_down
           [fullPrompt (js "How can I make pasta?")]).
  - apply sample_post_passes.
  - reflexivity.
  - reflexivity.
  - reflexivity.
Defined.

(** *** The prompt check *)

Lemma absent_or_empty_falsy (v : value) :
  absent_or_empty v -> ToBoolean v = false.
Proof. intros [-> | ->]; reflexivity. Qed.

(** What holds of the prompt check when the body can be read.  A request
    that passes the checks before the prompt, whose [req.body.prompt] can
    be read (POST) and whose task text is absent or the empty string (the
    [prompt] of a POST body; both [prompt] and [q] of a GET query) is
    answered 400 with the usage guidance, and the upstream is not
    called. *)
Theorem readable_absent_or_empty_prompt_is_rejected
        (cfg : config) (h : host) (req : request) :
  passes_checks cfg req ->
  (forall p,
      method req = js "POST" ->
      Get (body req) (js "prompt") = Normal p ->
      absent_or_empty p ->
      prompt_rejected (handler cfg h req)) /\
  (method req = js "GET" ->
   absent_or_empty (param req "prompt") ->
   absent_or_empty (param req "q") ->
   prompt_rejected (handler cfg h req)).
Proof.
  intros Hc. rewrite (handler_checked _ _ _ Hc). unfold userPrompt.
  split.
  - intros p Hm Hp He. rewrite Hm, Hp.
    cbn [JsString.eqb]. rewrite str_eqb_refl.
    rewrite (absent_or_empty_falsy _ He). cbn [negb].
    split; [reflexivity|]. eexists. split; [reflexivity|]. repeat split.
  - intros Hm Hp Hq. rewrite Hm.
    replace (JsString.eqb (js "GET") (js "POST")) with false
      by reflexivity.
    rewrite str_eqb_refl. unfold or_else.
    rewrite (absent_or_empty_falsy _ Hp), (absent_or_empty_falsy _ Hq).
    cbn [negb].
    split; [reflexivity|]. eexists. split; [reflexivity|]. repeat split.
Qed.

Lemma readable_absent_or_empty_prompt_witness :
  prompt_rejected
    (handler sample_config (sample_host (returns_text not_json))
             (sample_post (VStr []))).
Proof.
  destruct (readable_absent_or_empty_prompt_is_rejected
              sample_config (sample_host (returns_text not_json))
              (sample_post (VStr []))) as [H _].
  - apply sample_post_passes.
  - apply (H (VStr [])); [reflexivity | reflexivity | right; reflexivity].
Defined.

(** C8, evaluated on the code.  A POST request that passes the checks
    before the prompt and has no body ([req.body] is [undefined] or
    [null]) has no task text, yet it is not answered 400: reading
    [req.body.prompt] on line 99 throws a [TypeError] outside the [try],
    the handler throws it and answers nothing (the upstream is not
    called). *)
Theorem C8_post_without_body_is_not_answered_400
        (cfg : config) (h : host) (req : request) :
  passes_checks cfg req ->
  method req = js "POST" ->
  body req = VUndefined \/ body req = VNull ->
  (exists e,
      handler cfg h req = {| outcome := Throw e; sent := [] |} /\
      error_name e = js "TypeError") /\
  (forall r, outcome (handler cfg h req) <> Normal r) /\
  ~ prompt_rejected (handler cfg h req).
Proof.
  intros Hc Hm Hb.
  assert (H : exists e,
             handler cfg h req = {| outcome := Throw e; sent := [] |} /\
             error_name e = js "TypeError").
  { rewrite (handler_checked _ _ _ Hc). unfold userPrompt.
    rewrite Hm, str_eqb_refl.
    destruct Hb as [-> | ->]; eexists; split; reflexivity. }
  destruct H as (e & He & Hn).
  split; [exists e; now split|].
  split.
  - intros r Hr. rewrite He in Hr. discriminate Hr.
  - intros (_ & r & Hr & _). rewrite He in Hr. discriminate Hr.
Qed.

Lemma C8_witness :
  (exists e,
      handler sample_config (sample_host (returns_text not_json))
              post_without_body
      = {| outcome := Throw e; sent := [] |} /\
      error_name e = js "TypeError") /\
  (forall r,
      outcome (handler sample_config (sample_host (returns_text not_json))
                       post_without_body) <> Normal r) /\
  ~ prompt_rejected
      (handler sample_config (sample_host (returns_text not_json))
               post_without_body).
Proof.
  apply (C8_post_without_body_is_not_answered_400
           sample_config (sample_host (returns_text not_json))
           post_without_body).
  - split; [left; reflexivity|]. split.
    + exists (js "secret"). repeat split. discriminate.
    + exists (js "upstream-key"). split; [reflexivity | discriminate].
  - reflexivity.
  - left. reflexivity.
Defined.

(** The same request, run. *)
Example post_without_body_throws :
  handler sample_config (sample_host (returns_text not_json))
          {| method := js "POST";
             headers := [(js "x-api-key", js "secret")];
             query := [];
             body := VUndefined |}
  = {| outcome := Throw (cannot_read (js "undefined") (js "prompt"));
       sent := [] |}.
Proof. reflexivity. Qed.

(** *** The credential *)

Lemma no_credential_absent (req : request) :
  no_credential req -> providedApiKey req = VUndefined.
Proof.
  intros (Hx & Ha & Hq).
  unfold providedApiKey, header, bearer, param. now rewrite Hx, Ha, Hq.
Qed.

(** What the statuses 401 and 403 say about the credential. *)
Lemma credential_statuses
      (cfg : config) (h : host) (req : request) (key : jsstring) :
  API_KEY cfg = Some key ->
  (forall r, outcome (handler cfg h req) = Normal r -> status r = 401%Z ->
             ToBoolean (providedApiKey req) = false) /\
  (forall r, outcome (handler cfg h req) = Normal r -> status r = 403%Z ->
             ToBoolean (providedApiKey req) = true /\
             providedApiKey req <> VStr key).
Proof.
  intros Hk.
  split; intros r Hr S;
    destruct (handler_cases cfg h req)
      as [[Hn E] | [[Hn E] | [[Hp E] | [(Hp & Hd & E) | [[_ E] |
          [(_ & e & _ & E) | [(_ & p & _ & _ & E) |
           (Hc & p & Hp & Ht & E)]]]]]]];
    rewrite E in Hr; try discriminate;
    try (injection Hr as <-; try discriminate S).
  - exact Hp.
  - apply generate_status in Hr.
    destruct Hr as [R | [R | R]]; rewrite R in S; discriminate.
  - split; [exact Hp|]. intros Heq. rewrite Hk, Heq in Hd.
    cbn [of_option strict_equal] in Hd.
    now rewrite str_eqb_refl in Hd.
  - apply generate_status in Hr.
    destruct Hr as [R | [R | R]]; rewrite R in S; discriminate.
Qed.

(** C9.  With an accepted method and a configured [API_KEY]: a request
    with no credential (nothing on the three channels, or nothing but
    empty strings) is answered 401 with the guidance that lists the
    channels per method; a request whose credential differs from the
    configured key is answered 403; 401 is answered for an absent
    credential only and 403 for a present, different one only. *)
Theorem C9_absent_is_401_and_different_is_403
        (cfg : config) (h : host) (req : request) (key : jsstring) :
  method req = js "POST" \/ method req = js "GET" ->
  API_KEY cfg = Some key -> key <> [] ->
  (no_credential req -> ToBoolean (providedApiKey req) = false) /\
  (ToBoolean (providedApiKey req) = false ->
   handler cfg h req = answer 401 unauthorized_body) /\
  (ToBoolean (providedApiKey req) = true ->
   providedApiKey req <> VStr key ->
   handler cfg h req = answer 403 (obj [("error", str "Invalid API key.")]))
  /\
  (forall r,
      outcome (handler cfg h req) = Normal r ->
      (status r = 401%Z -> ToBoolean (providedApiKey req) = false) /\
      (status r = 403%Z ->
       ToBoolean (providedApiKey req) = true /\
       providedApiKey req <> VStr key)) /\
  at_path unauthorized_body ["error"] = str "API key is required." /\
  at_path unauthorized_body ["methods"; "POST"]
  = str "Provide in 'x-api-key' header or 'Authorization: Bearer <key>' header"
  /\
  at_path unauthorized_body ["methods"; "GET"]
  = str "Provide in 'api_key' query parameter, 'x-api-key' header, or 'Authorization: Bearer <key>' header".
Proof.
  intros Hm Hk Hne.
  assert (Hcfg : ToBoolean (of_option (API_KEY cfg)) = true)
    by (rewrite Hk; now apply ToBoolean_str).
  split; [intros H; now rewrite (no_credential_absent _ H)|].
  split; [|split; [|split; [|repeat split]]].
  - intros Hp. unfold handler.
    rewrite (method_accepted _ Hm), Hcfg, Hp. reflexivity.
  - intros Hp Hd. unfold handler.
    rewrite (method_accepted _ Hm), Hcfg, Hp, Hk. cbn [negb of_option].
    destruct (strict_equal (providedApiKey req) (VStr key)) eqn:E;
      [|reflexivity].
    apply strict_equal_string in E. contradiction.
  - intros r Hr. destruct (credential_statuses cfg h req key Hk) as [H1 H3].
    split; [apply (H1 r Hr) | apply (H3 r Hr)].
Qed.

Lemma C9_witness :
  handler sample_config (sample_host (returns_text not_json)) bare_get
  = answer 401 unauthorized_body /\
  handler sample_config (sample_host (returns_text not_json)) wrong_key_post
  = answer 403 (obj [("error", str "Invalid API key.")]).
Proof.
  split.
  - destruct (C9_absent_is_401_and_different_is_403
                sample_config (sample_host (returns_text not_json))
                bare_get (js "secret")) as (_ & H & _).
    + right. reflexivity.
    + reflexivity.
    + discriminate.
    + apply H. reflexivity.
  - destruct (C9_absent_is_401_and_different_is_403
                sample_config (sample_host (returns_text not_json))
                wrong_key_post (js "secret")) as (_ & _ & H & _).
    + left. reflexivity.
    + reflexivity.
    + discriminate.
    + apply H; [reflexivity | discriminate].
Defined.

(** The precedence of the three channels: the [x-api-key] header if it
    is not empty, else the [Authorization] header without its first
    ["Bearer "] if that is not empty, else the [api_key] query
    parameter, and this whatever the method is. *)
Lemma providedApiKey_precedence (req : request) :
  providedApiKey req =
  match own (headers req) (js "x-api-key") with
  | Some ((_ :: _) as k) => VStr k
  | _ =>
      match own (headers req) (js "authorization") with
      | Some a =>
          match JsString.replace (js "Bearer ") [] a with
          | (_ :: _) as k => VStr k
          | [] => param req "api_key"
          end
      | None => param req "api_key"
      end
  end.
Proof.
  unfold providedApiKey, header, bearer, or_else.
  destruct (own (headers req) (js "x-api-key")) as [[|c k]|];
    cbn [of_option ToBoolean JsString.eqb negb]; try reflexivity;
    (destruct (own (headers req) (js "authorization")) as [a|];
     cbn [ToBoolean]; [|reflexivity];
     destruct (JsString.replace (js "Bearer ") [] a); reflexivity).
Qed.

(** C2, evaluated on the code.  A POST request whose only credential is
    the [api_key] query parameter, equal to the configured key, is not
    answered 401: the parameter is read as the credential for every
    method, and the request passes the credential checks. *)
Theorem C2_post_query_key_is_honored
        (cfg : config) (h : host) (req : request) (key : jsstring) :
  method req = js "POST" ->
  own (headers req) (js "x-api-key") = None ->
  own (headers req) (js "authorization") = None ->
  own (query req) (js "api_key") = Some (VStr key) ->
  API_KEY cfg = Some key -> key <> [] ->
  providedApiKey req = VStr key /\
  forall r, outcome (handler cfg h req) = Normal r ->
            status r <> 401%Z /\ status r <> 403%Z.
Proof.
  intros Hm Hx Ha Hq Hk Hne.
  assert (Hp : providedApiKey req = VStr key).
  { rewrite providedApiKey_precedence, Hx, Ha. unfold param.
    now rewrite Hq. }
  split; [exact Hp|]. intros r Hr.
  destruct (credential_statuses cfg h req key) as [H1 H3]; auto.
  split; intros S.
  - apply (H1 r Hr) in S. rewrite Hp in S.
    apply ToBoolean_str in Hne. congruence.
  - apply (H3 r Hr) in S as [_ S]. contradiction.
Qed.

Lemma C2_witness :
  providedApiKey query_key_post = str "secret" /\
  forall r,
    outcome (handler sample_config
                     (sample_host (returns_text fenced_answer))
                     query_key_post) = Normal r ->
    status r <> 401%Z /\ status r <> 403%Z.
Proof.
  apply (C2_post_query_key_is_honored
           sample_config (sample_host (returns_text fenced_answer))
           query_key_post (js "secret"));
    try reflexivity.
  discriminate.
Defined.

(** The same request, run: it is served, and its prompt went upstream. *)
Example query_key_post_is_served :
  exists r,
    handler sample_config (sample_host (returns_text fenced_answer))
            query_key_post
    = {| outcome := Normal r;
         sent := [fullPrompt (js "How can I make pasta?")] |} /\
    status r = 200%Z.
Proof. eexists. split; reflexivity. Qed.

(** *** The structured answer *)

(** On the structured path [steps] is the parsed value and [tips] the
    parsed value unless that is falsy. *)
Lemma structured_response_fields (h : host) (v : value) :
  v <> VUndefined -> v <> VNull ->
  exists r,
    structured_response h v = Normal r /\
    at_path (json r) ["data"; "steps"] = at_path v ["steps"] /\
    at_path (json r) ["data"; "tips"] = or_else (at_path v ["tips"]) (VArr []).
Proof.
  intros Hu Hn. unfold structured_response.
  rewrite !(Get_defined v) by assumption. cbn [bind].
  rewrite GetOptional_total. cbn [bind].
  eexists. split; [reflexivity|]. split; reflexivity.
Qed.

(** C1, evaluated on the code.  When the upstream answer has the three
    required fields, with strings for [steps] and [tips], the handler
    answers 200 and hands both strings on as [data.steps] and
    [data.tips]: on this path neither is checked to be an array. *)
Theorem C1_structured_answer_keeps_string_steps
        (cfg : config) (h : host) (req : request) (g : generation) :
  upstream_returns cfg h req g ->
  text g = string_steps_answer ->
  exists r,
    outcome (handler cfg h req) = Normal r /\
    status r = 200%Z /\
    at_path (json r) ["success"] = VBool true /\
    at_path (json r) ["data"; "steps"] = str "boil water" /\
    at_path (json r) ["data"; "tips"] = str "add salt" /\
    Array_isArray (at_path (json r) ["data"; "steps"]) = false /\
    Array_isArray (at_path (json r) ["data"; "tips"]) = false.
Proof.
  intros Hup Htext.
  destruct (handler_upstream_returns _ _ _ _ Hup) as [u ->].
  rewrite (after_generation_parsed h g
             (obj [("title", str "T"); ("summary", str "S");
                   ("steps", str "boil water"); ("tips", str "add salt")]))
    by (rewrite Htext; reflexivity).
  eexists. split; [reflexivity|]. repeat split.
Qed.

Lemma C1_witness :
  exists r,
    outcome (handler sample_config
                     (sample_host (returns_text string_steps_answer))
                     (sample_post (str "How can I make pasta?")))
    = Normal r /\
    status r = 200%Z /\
    at_path (json r) ["success"] = VBool true /\
    at_path (json r) ["data"; "steps"] = str "boil water" /\
    at_path (json r) ["data"; "tips"] = str "add salt" /\
    Array_isArray (at_path (json r) ["data"; "steps"]) = false /\
    Array_isArray (at_path (json r) ["data"; "tips"]) = false.
Proof.
  apply (C1_structured_answer_keeps_string_steps
           sample_config (sample_host (returns_text string_steps_answer))
           (sample_post (str "How can I make pasta?"))
           {| text := string_steps_answer; promptFeedback := VUndefined |}).
  - apply sample_post_returns.
  - reflexivity.
Defined.

(** *** Falsy and absent fields *)

Lemma falsy_not_array (a : value) :
  ToBoolean a = false -> Array_isArray a = false.
Proof. destruct a; try reflexivity; discriminate. Qed.

Lemma alike_ToBoolean (a b : value) :
  alike a b -> ToBoolean a = ToBoolean b.
Proof. intros [-> | [Ha Hb]]; congruence. Qed.

Lemma alike_truthy (a b : value) :
  alike a b -> ToBoolean b = true -> a = b.
Proof. intros [-> | [Ha Hb]]; congruence. Qed.

Lemma alike_or_else (a b d : value) :
  alike a b -> or_else a d = or_else b d.
Proof.
  intros [-> | [Ha Hb]]; [reflexivity|]. unfold or_else.
  now rewrite Ha, Hb.
Qed.

Lemma alike_array_or_empty (a b : value) :
  alike a b ->
  (if Array_isArray a then a else VArr [])
  = (if Array_isArray b then b else VArr []).
Proof.
  intros [-> | [Ha Hb]]; [reflexivity|].
  now rewrite (falsy_not_array _ Ha), (falsy_not_array _ Hb).
Qed.

Lemma validate_and_respond_alike (h : host) (t : jsstring) (v w : value) :
  v <> VUndefined -> v <> VNull -> w <> VUndefined -> w <> VNull ->
  (forall k, In k answer_fields -> alike (at_path v [k]) (at_path w [k])) ->
  validate_and_respond h t v = validate_and_respond h t w.
Proof.
  intros Hv1 Hv2 Hw1 Hw2 H.
  assert (H1 := H "title" ltac:(simpl; tauto)).
  assert (H2 := H "summary" ltac:(simpl; tauto)).
  assert (H3 := H "steps" ltac:(simpl; tauto)).
  assert (H4 := H "tips" ltac:(simpl; tauto)).
  assert (H5 := H "timeEstimate" ltac:(simpl; tauto)).
  assert (H6 := H "difficulty" ltac:(simpl; tauto)).
  clear H.
  assert (Hm : falsy_required v = falsy_required w).
  { unfold falsy_required. cbn [filter].
    now rewrite (alike_ToBoolean _ _ H1), (alike_ToBoolean _ _ H2),
      (alike_ToBoolean _ _ H3). }
  unfold validate_and_respond.
  rewrite !missing_among_defined by assumption. cbn [bind].
  rewrite Hm.
  destruct (0 <? List.length (falsy_required w))%nat eqn:E.
  - unfold missing_fields_response.
    rewrite !(Get_defined v), !(Get_defined w) by assumption. cbn [bind].
    now rewrite (alike_or_else _ _ _ H1), (alike_or_else _ _ _ H2),
      (alike_or_else _ _ _ H5), (alike_or_else _ _ _ H6),
      (alike_array_or_empty _ _ H3), (alike_array_or_empty _ _ H4).
  - unfold falsy_required in E. cbn [filter] in E.
    destruct (ToBoolean (at_path w ["title"])) eqn:T1; [|discriminate E].
    destruct (ToBoolean (at_path w ["summary"])) eqn:T2; [|discriminate E].
    destruct (ToBoolean (at_path w ["steps"])) eqn:T3; [|discriminate E].
    unfold structured_response.
    rewrite !(Get_defined v), !(Get_defined w) by assumption. cbn [bind].
    rewrite !GetOptional_total. cbn [bind].
    now rewrite (alike_truthy _ _ H1 T1), (alike_truthy _ _ H2 T2),
      (alike_truthy _ _ H3 T3), (alike_or_else _ _ _ H4),
      (alike_or_else _ _ _ H5), (alike_or_else _ _ _ H6).
Qed.

Lemma validate_missing (h : host) (t : jsstring) (v : value) :
  v <> VUndefined -> v <> VNull -> falsy_required v <> [] ->
  validate_and_respond h t v
  = missing_fields_response h t v (falsy_required v).
Proof.
  intros Hu Hn Hm. unfold validate_and_respond.
  rewrite missing_among_defined by assumption. cbn [bind].
  destruct (falsy_required v); [contradiction | reflexivity].
Qed.

(** What the fallback of lines 181-200 answers. *)
Lemma missing_fields_response_fields
      (h : host) (t : jsstring) (v : value) (m : list jsstring) :
  v <> VUndefined -> v <> VNull ->
  exists r,
    missing_fields_response h t v m = Normal r /\
    status r = 200%Z /\
    at_path (json r) ["success"] = VBool true /\
    at_path (json r) ["data"; "title"]
    = or_else (at_path v ["title"]) (str "QuickFix Response") /\
    at_path (json r) ["data"; "summary"]
    = or_else (at_path v ["summary"]) (str "Generated response") /\
    at_path (json r) ["data"; "steps"]
    = (if Array_isArray (at_path v ["steps"])
       then at_path v ["steps"] else VArr []) /\
    at_path (json r) ["data"; "tips"]
    = (if Array_isArray (at_path v ["tips"])
       then at_path v ["tips"] else VArr []) /\
    at_path (json r) ["data"; "timeEstimate"]
    = or_else (at_path v ["timeEstimate"]) (str "Unknown") /\
    at_path (json r) ["data"; "difficulty"]
    = or_else (at_path v ["difficulty"]) (str "unknown") /\
    at_path (json r) ["data"; "content"] = VStr t /\
    at_path (json r) ["metadata"; "warning"]
    = VStr (js "Missing fields: " ++ join (js ", ") m).
Proof.
  intros Hu Hn. unfold missing_fields_response.
  rewrite !(Get_defined v) by assumption. cbn [bind].
  eexists. split; [reflexivity|]. repeat split.
Qed.

(** On the two degraded paths [steps] and [tips] are arrays. *)
Lemma degraded_answers_have_arrays (h : host) (t : jsstring) :
  (forall r,
      parse_failure_response h t = r ->
      Array_isArray (at_path (json r) ["data"; "steps"]) = true /\
      Array_isArray (at_path (json r) ["data"; "tips"]) = true) /\
  (forall v m r,
      missing_fields_response h t v m = Normal r ->
      Array_isArray (at_path (json r) ["data"; "steps"]) = true /\
      Array_isArray (at_path (json r) ["data"; "tips"]) = true).
Proof.
  split.
  - intros r <-. split; reflexivity.
  - intros v m r. unfold missing_fields_response. read_fields.
    intros H. injection H as <-.
    change (Array_isArray (if Array_isArray a1 then a1 else VArr []) = true
            /\ Array_isArray (if Array_isArray a2 then a2 else VArr [])
               = true).
    destruct (Array_isArray a1) eqn:E1, (Array_isArray a2) eqn:E2;
      rewrite ?E1, ?E2; split; reflexivity.
Qed.

(** *** Missing required fields *)

(** C4 does not hold as stated: in the answer to
    [{"title":"T","steps":"boil water"}], [steps] is present and is not
    used as it is, it is replaced by the empty array. *)
Lemma C4_counterexample :
  ~ C4_as_stated sample_config
      (sample_host (returns_text no_summary_string_steps))
      (sample_post (str "How can I make pasta?"))
      {| text := no_summary_string_steps; promptFeedback := VUndefined |}.
Proof.
  intros H.
  destruct (H (sample_post_returns _)
              [(js "title", str "T"); (js "steps", str "boil water")]
              eq_refl)
    as (r & Hr & _ & Hf & _).
  - exists "summary". split; [simpl; tauto | reflexivity].
  - injection Hr as <-.
    specialize (Hf "steps" ltac:(simpl; tauto)). discriminate Hf.
Qed.

(** Nor is a present field with a falsy value used as it is: for
    an object with an empty [title], an array of [steps] and no
    [summary], the title of the answer is the default. *)
Example C4_as_stated_fails_on_empty_title :
  ~ C4_as_stated sample_config
      (sample_host (returns_text (quoted "'" "{'title':'','steps':['a']}")))
      (sample_post (str "How can I make pasta?"))
      {| text := quoted "'" "{'title':'','steps':['a']}";
         promptFeedback := VUndefined |}.
Proof.
  intros H.
  destruct (H (sample_post_returns _)
              [(js "title", VStr []); (js "steps", VArr [str "a"])]
              eq_refl)
    as (r & Hr & _ & Hf & _).
  - exists "summary". split; [simpl; tauto | reflexivity].
  - injection Hr as <-.
    specialize (Hf "title" ltac:(simpl; tauto)). discriminate Hf.
Qed.

(** C4, amended.  For a parsed object with at least one required field
    absent or falsy, the handler answers 200 with [success: true];
    [title], [summary], [timeEstimate] and [difficulty] are the parsed
    values when these are truthy and the defaults otherwise; [steps] and
    [tips] are the parsed values when these are arrays and the empty
    array otherwise; the raw text is [data.content]; and
    [metadata.warning] lists exactly the required fields that are absent
    or falsy, in the order title, summary, steps. *)
Theorem C4_missing_fields_fallback
        (cfg : config) (h : host) (req : request) (g : generation)
        (props : list (jsstring * value)) :
  upstream_returns cfg h req g ->
  Json.parse (cleanText (text g)) = Some (VObj props) ->
  falsy_required (VObj props) <> [] ->
  exists r,
    outcome (handler cfg h req) = Normal r /\
    status r = 200%Z /\
    at_path (json r) ["success"] = VBool true /\
    at_path (json r) ["data"; "title"]
    = or_else (at_path (VObj props) ["title"]) (str "QuickFix Response") /\
    at_path (json r) ["data"; "summary"]
    = or_else (at_path (VObj props) ["summary"])
              (str "Generated response") /\
    at_path (json r) ["data"; "steps"]
    = (if Array_isArray (at_path (VObj props) ["steps"])
       then at_path (VObj props) ["steps"] else VArr []) /\
    at_path (json r) ["data"; "tips"]
    = (if Array_isArray (at_path (VObj props) ["tips"])
       then at_path (VObj props) ["tips"] else VArr []) /\
    at_path (json r) ["data"; "timeEstimate"]
    = or_else (at_path (VObj props) ["timeEstimate"]) (str "Unknown") /\
    at_path (json r) ["data"; "difficulty"]
    = or_else (at_path (VObj props) ["difficulty"]) (str "unknown") /\
    at_path (json r) ["data"; "content"] = VStr (text g) /\
    at_path (json r) ["metadata"; "warning"]
    = VStr (js "Missing fields: "
            ++ join (js ", ") (falsy_required (VObj props))).
Proof.
  intros Hup Hparse Hm.
  destruct (handler_upstream_returns _ _ _ _ Hup) as [u ->].
  rewrite (after_generation_parsed _ _ _ Hparse).
  rewrite validate_missing by (discriminate || assumption).
  destruct (missing_fields_response_fields
              h (text g) (VObj props) (falsy_required (VObj props)))
    as (r & -> & Hr); try discriminate.
  exists r. split; [reflexivity | exact Hr].
Qed.

Lemma C4_witness :
  exists r,
    outcome (handler sample_config
                     (sample_host (returns_text no_summary_answer))
                     (sample_post (str "How can I make pasta?")))
    = Normal r /\
    status r = 200%Z /\
    at_path (json r) ["data"; "title"] = str "T" /\
    at_path (json r) ["data"; "summary"] = str "Generated response" /\
    at_path (json r) ["data"; "steps"] = VArr [str "a"] /\
    at_path (json r) ["data"; "content"] = VStr no_summary_answer /\
    at_path (json r) ["metadata"; "warning"]
    = str "Missing fields: summary".
Proof.
  destruct (C4_missing_fields_fallback
              sample_config (sample_host (returns_text no_summary_answer))
              (sample_post (str "How can I make pasta?"))
              {| text := no_summary_answer; promptFeedback := VUndefined |}
              [(js "title", str "T"); (js "steps", VArr [str "a"])])
    as (r & Hr & Hs & _ & Ht & Hsum & Hst & _ & _ & _ & Hc & Hw).
  - apply sample_post_returns.
  - reflexivity.
  - discriminate.
  - exists r. repeat split; assumption.
Defined.

(** *** Falsy required fields *)

Lemma own_without_same (k : jsstring) (props : list (jsstring * value)) :
  own (without k props) k = None.
Proof.
  induction props as [|[k' x] props IH]; [reflexivity|].
  unfold without in *. cbn [filter fst].
  destruct (JsString.eqb k' k) eqn:E; cbn [negb own]; [exact IH|].
  now rewrite E.
Qed.

Lemma own_without_other (k f : jsstring)
      (props : list (jsstring * value)) :
  f <> k -> own (without k props) f = own props f.
Proof.
  intros Hne. induction props as [|[k' x] props IH]; [reflexivity|].
  unfold without in *. cbn [filter fst].
  destruct (JsString.eqb k' k) eqn:E; cbn [negb own].
  - apply str_eqb_eq in E. subst k'.
    destruct (JsString.eqb k f) eqn:F; [|exact IH].
    apply str_eqb_eq in F. now elim Hne.
  - now rewrite IH.
Qed.

Lemma at_path_object (props : list (jsstring * value)) (k : string) :
  at_path (VObj props) [k]
  = match own props (js k) with Some x => x | None => VUndefined end.
Proof. reflexivity. Qed.

Lemma js_injective (a b : string) : js a = js b -> a = b.
Proof.
  unfold js. revert b.
  induction a as [|c a IH]; destruct b as [|d b]; cbn [list_ascii_of_string map];
    try discriminate; [reflexivity|].
  intros H. injection H as Hc Hr.
  apply (f_equal ascii_of_N) in Hc. rewrite !ascii_N_embedding in Hc.
  now rewrite Hc, (IH _ Hr).
Qed.

(** A falsy property and no property are alike, field by field. *)
Lemma without_falsy_alike
      (props : list (jsstring * value)) (k : string) (x : value) :
  own props (js k) = Some x -> ToBoolean x = false ->
  forall f, alike (at_path (VObj props) [f])
                  (at_path (VObj (without (js k) props)) [f]).
Proof.
  intros Hk Hx f. rewrite !at_path_object.
  destruct (string_dec f k) as [-> | Hne].
  - rewrite own_without_same, Hk. right. now split.
  - rewrite own_without_other; [now left|].
    intros E. now apply js_injective in E.
Qed.

(** C10.  A required field ([title], [summary] or [steps]) that the
    parsed object has with a falsy value (the empty string, zero,
    [false], [null]) is counted among the missing fields: the handler
    takes the fallback path, answers 200 with the default in place of
    that field, names the field in [metadata.warning], and answers what
    it would answer for the same object without that key. *)
Theorem C10_falsy_required_field_counts_as_missing
        (cfg : config) (h : host) (req : request) (g : generation)
        (props : list (jsstring * value)) (k : string) (x : value) :
  upstream_returns cfg h req g ->
  Json.parse (cleanText (text g)) = Some (VObj props) ->
  In k ["title"; "summary"; "steps"] ->
  own props (js k) = Some x -> ToBoolean x = false ->
  In (js k) (falsy_required (VObj props)) /\
  (exists r,
      outcome (handler cfg h req) = Normal r /\
      status r = 200%Z /\
      at_path (json r) ["success"] = VBool true /\
      at_path (json r) ["data"; k] = field_default k /\
      at_path (json r) ["data"; "content"] = VStr (text g) /\
      at_path (json r) ["metadata"; "warning"]
      = VStr (js "Missing fields: "
              ++ join (js ", ") (falsy_required (VObj props)))) /\
  validate_and_respond h (text g) (VObj props)
  = validate_and_respond h (text g) (VObj (without (js k) props)).
Proof.
  intros Hup Hparse Hin Hk Hx.
  assert (Hf : ToBoolean (at_path (VObj props) [k]) = false)
    by (rewrite at_path_object, Hk; exact Hx).
  assert (Hmem : In (js k) (falsy_required (VObj props))).
  { unfold falsy_required. apply in_map, filter_In.
    split; [exact Hin | now rewrite Hf]. }
  split; [exact Hmem|]. split.
  - destruct (handler_upstream_returns _ _ _ _ Hup) as [u ->].
    rewrite (after_generation_parsed _ _ _ Hparse).
    rewrite validate_missing;
      [| discriminate | discriminate | intros E; now rewrite E in Hmem].
    destruct (missing_fields_response_fields
                h (text g) (VObj props) (falsy_required (VObj props)))
      as (r & -> & Hs & Hok & Ht & Hsum & Hst & _ & _ & _ & Hc & Hw);
      try discriminate.
    exists r. split; [reflexivity|].
    split; [exact Hs|]. split; [exact Hok|].
    split; [|split; assumption].
    unfold or_else in Ht, Hsum.
    destruct Hin as [<- | [<- | [<- | []]]].
    + now rewrite Ht, Hf.
    + now rewrite Hsum, Hf.
    + now rewrite Hst, (falsy_not_array _ Hf).
  - apply validate_and_respond_alike; try discriminate.
    intros f _. now apply (without_falsy_alike props k x).
Qed.

Lemma C10_witness :
  exists r,
    outcome (handler sample_config
                     (sample_host (returns_text empty_title_answer))
                     (sample_post (str "How can I make pasta?")))
    = Normal r /\
    status r = 200%Z /\
    at_path (json r) ["success"] = VBool true /\
    at_path (json r) ["data"; "title"] = str "QuickFix Response" /\
    at_path (json r) ["data"; "content"] = VStr empty_title_answer /\
    at_path (json r) ["metadata"; "warning"]
    = str "Missing fields: title".
Proof.
  apply (C10_falsy_required_field_counts_as_missing
           sample_config (sample_host (returns_text empty_title_answer))
           (sample_post (str "How can I make pasta?"))
           {| text := empty_title_answer; promptFeedback := VUndefined |}
           [(js "title", VStr []); (js "summary", str "S");
            (js "steps", VArr [str "a"])]
           "title" (VStr [])).
  - apply sample_post_returns.
  - reflexivity.
  - simpl. tauto.
  - reflexivity.
  - reflexivity.
Defined.

End Properties.

(* ------------------------------------------------------------------ *)
(** ** Further properties: the checks, the envelopes, the cleaning *)

Module Coverage.

Import JsNumber QuickFix Spec Properties.
Local Open Scope string_scope.
Local Open Scope list_scope.

(** *** Where an answer comes from *)

Lemma Get_throws (v : value) (k : jsstring) (e : error) :
  Get v k = Throw e -> v = VUndefined \/ v = VNull.
Proof.
  destruct v; cbn [Get]; auto; try discriminate.
  - destruct (JsString.eqb k length_key); [discriminate|].
    destruct (array_index k); discriminate.
  - destruct (JsString.eqb k length_key); [discriminate|].
    destruct (array_index k); discriminate.
Qed.

Lemma validate_and_respond_cases (h : host) (t : jsstring) (v : value)
      (r : response) :
  validate_and_respond h t v = Normal r ->
  v <> VUndefined /\ v <> VNull /\
  ((falsy_required v <> [] /\
    missing_fields_response h t v (falsy_required v) = Normal r) \/
   (falsy_required v = [] /\ structured_response h v = Normal r)).
Proof.
  intros H.
  assert (Hd : v <> VUndefined /\ v <> VNull).
  { split; intros ->; discriminate H. }
  destruct Hd as [Hu Hn]. split; [exact Hu|]. split; [exact Hn|].
  unfold validate_and_respond in H.
  rewrite missing_among_defined in H by assumption. cbn [bind] in H.
  destruct (falsy_required v) as [|k m]; cbn in H.
  - right. now split.
  - left. split; [discriminate | exact H].
Qed.

Lemma parse_and_respond_produced (h : host) (t : jsstring) (r : response) :
  parse_and_respond h t = Normal r -> produced h r.
Proof.
  unfold parse_and_respond.
  destruct (Json.parse (cleanText t)) as [v|] eqn:E.
  - intros H. apply validate_and_respond_cases in H
      as (Hu & Hn & [[Hm H] | [Hm H]]).
    + now apply (produced_fallback h r t v).
    + now apply (produced_structured h r v).
  - intros H. injection H as <-. now apply (produced_unparsed h _ t).
Qed.

Lemma generate_unfold (h : host) (p : value) :
  generate h p =
  match ToString (Number_toString h) p with
  | Throw e => {| outcome := Normal (failure_response e); sent := [] |}
  | Normal u =>
      {| outcome :=
           Normal (caught (bind (generateContent h (fullPrompt u))
                                (after_generation h)));
         sent := [fullPrompt u] |}
  end.
Proof.
  unfold generate, try_generate.
  destruct (ToString (Number_toString h) p); reflexivity.
Qed.

Lemma caught_produced (h : host) (c : completion generation) :
  produced h (caught (bind c (after_generation h))).
Proof.
  destruct c as [g|e]; cbn [bind caught];
    [|now apply (produced_failure h _ e)].
  rewrite after_generation_spec.
  destruct (JsString.eqb (text g) [] && ToBoolean (block_reason g)) eqn:E.
  - apply andb_true_iff in E as [_ E]. cbn [caught].
    now apply (produced_blocked h _ (block_reason g)).
  - destruct (parse_and_respond h (text g)) as [r|e] eqn:P; cbn [caught].
    + now apply parse_and_respond_produced in P.
    + now apply (produced_failure h _ e).
Qed.

Lemma generate_produced (h : host) (p : value) (r : response) :
  outcome (generate h p) = Normal r -> produced h r.
Proof.
  rewrite generate_unfold.
  destruct (ToString (Number_toString h) p) as [u|e]; cbn [outcome];
    intros H; injection H as <-.
  - apply caught_produced.
  - now apply (produced_failure h _ e).
Qed.

Lemma handler_produced (cfg : config) (h : host) (req : request)
      (r : response) :
  outcome (handler cfg h req) = Normal r -> produced h r.
Proof.
  intros Hr.
  destruct (handler_cases cfg h req)
    as [[_ E] | [[_ E] | [[_ E] | [(_ & _ & E) | [[_ E] |
        [(_ & e & _ & E) | [(_ & p & _ & _ & E) |
         (_ & p & _ & _ & E)]]]]]]];
    rewrite E in Hr; try discriminate;
    try (injection Hr as <-; apply produced_fixed; simpl; tauto).
  now apply generate_produced in Hr.
Qed.

Ltac explicit v H :=
  unfold missing_fields_response, structured_response in H;
  rewrite !(Get_defined v) in H by assumption;
  cbn [bind] in H; rewrite ?GetOptional_total in H;
  cbn [bind] in H; injection H as <-.

Lemma falsy_required_nil (v : value) :
  falsy_required v = [] ->
  ToBoolean (at_path v ["title"]) = true /\
  ToBoolean (at_path v ["summary"]) = true /\
  ToBoolean (at_path v ["steps"]) = true.
Proof.
  unfold falsy_required. cbn [filter].
  destruct (ToBoolean (at_path v ["title"])),
    (ToBoolean (at_path v ["summary"])),
    (ToBoolean (at_path v ["steps"])); cbn; intros H;
    try discriminate H; repeat split.
Qed.

Lemma or_else_truthy (a d : value) :
  ToBoolean d = true -> ToBoolean (or_else a d) = true.
Proof.
  intros Hd. unfold or_else. destruct (ToBoolean a) eqn:E; assumption.
Qed.

Lemma array_or_empty_truthy (a : value) :
  ToBoolean (if Array_isArray a then a else VArr []) = true.
Proof. destruct a; reflexivity. Qed.

(** X3.  In every answer with status 200, each of [title], [summary],
    [steps], [tips], [timeEstimate] and [difficulty] of [data] is truthy:
    none is absent, [null], the empty string, zero or [false]. *)
Theorem every_field_of_a_success_is_truthy
        (cfg : config) (h : host) (req : request) (r : response) (k : string) :
  outcome (handler cfg h req) = Normal r ->
  status r = 200%Z ->
  In k answer_fields ->
  ToBoolean (at_path (json r) ["data"; k]) = true.
Proof.
  intros Hr Hs Hk. apply handler_produced in Hr.
  destruct Hr as [Hin | e -> | reason _ -> | t _ -> | t v Hu Hn Hm H
                  | v Hu Hn Hm H].
  - simpl in Hin.
    repeat (destruct Hin as [<- | Hin]; [discriminate Hs|]).
    contradiction.
  - discriminate Hs.
  - discriminate Hs.
  - simpl in Hk.
    repeat (destruct Hk as [<- | Hk]; [reflexivity|]). contradiction.
  - explicit v H. simpl in Hk.
    repeat (destruct Hk as [<- | Hk];
            [first [ apply or_else_truthy; reflexivity
                   | apply array_or_empty_truthy ]|]).
    contradiction.
  - explicit v H. apply falsy_required_nil in Hm as (T1 & T2 & T3).
    simpl in Hk.
    destruct Hk as [<- | [<- | [<- | [<- | [<- | [<- | []]]]]]];
      first [ assumption | apply or_else_truthy; reflexivity ].
Qed.

(** X2.  An answer has [success: true] exactly when its status is 200.
    A 200 answer carries [metadata.timestamp], [metadata.model] equal to
    [MODEL_ID], exactly one of [parseError], [warning] and [stepCount],
    the raw text as [data.content] exactly when it has no [stepCount], and
    no [error].  Every other answer carries a non-empty [error] string
    and neither [data] nor [metadata]. *)
Theorem success_and_error_envelopes
        (cfg : config) (h : host) (req : request) (r : response) :
  outcome (handler cfg h req) = Normal r ->
  (status r = 200%Z <-> at_path (json r) ["success"] = VBool true) /\
  (status r = 200%Z ->
   at_path (json r) ["metadata"; "timestamp"] = VStr (now h) /\
   at_path (json r) ["metadata"; "model"] = VStr MODEL_ID /\
   (exists k, metadata_extras r = [k]) /\
   has_own (at_path (json r) ["data"]) "content"
   = negb (has_own (at_path (json r) ["metadata"]) "stepCount") /\
   has_own (json r) "error" = false) /\
  (status r <> 200%Z ->
   (exists s, at_path (json r) ["error"] = VStr s /\ s <> []) /\
   has_own (json r) "data" = false /\
   has_own (json r) "metadata" = false).
Proof.
  intros Hr. apply handler_produced in Hr.
  destruct Hr as [Hin | e -> | reason _ -> | t _ -> | t v Hu Hn Hm H
                  | v Hu Hn Hm H].
  - simpl in Hin.
    repeat (destruct Hin as [<- | Hin];
            [split; [split; discriminate|];
             split; [discriminate|];
             intros _; split; [eexists; split; [reflexivity|discriminate]|];
             split; reflexivity|]).
    contradiction.
  - split; [split; discriminate|]. split; [discriminate|].
    intros _. split; [eexists; split; [reflexivity|discriminate]|].
    split; reflexivity.
  - split; [split; discriminate|]. split; [discriminate|].
    intros _. split; [eexists; split; [reflexivity|discriminate]|].
    split; reflexivity.
  - split; [split; reflexivity|]. split; [|intros F; now elim F].
    intros _. repeat split. now exists "parseError".
  - explicit v H.
    split; [split; reflexivity|]. split; [|intros F; now elim F].
    intros _. repeat split. now exists "warning".
  - explicit v H.
    split; [split; reflexivity|]. split; [|intros F; now elim F].
    intros _. repeat split. now exists "stepCount".
Qed.

Lemma produced_status (h : host) (r : response) :
  produced h r ->
  In (status r) [200; 400; 401; 403; 405; 500]%Z.
Proof.
  intros [Hin | e -> | reason _ -> | t _ -> | t v Hu Hn Hm H
          | v Hu Hn Hm H].
  - simpl in Hin.
    repeat (destruct Hin as [<- | Hin]; [simpl; tauto|]). contradiction.
  - simpl; tauto.
  - simpl; tauto.
  - simpl; tauto.
  - apply missing_fields_response_status in H. rewrite H. simpl; tauto.
  - apply structured_response_status in H. rewrite H. simpl; tauto.
Qed.

Lemma method_rejected (cfg : config) (h : host) (req : request) :
  ~ (method req = js "POST" \/ method req = js "GET") ->
  handler cfg h req
  = answer 405 (obj [("error", str "Method not allowed. Use GET or POST.")]).
Proof.
  intros Hm. unfold handler.
  destruct (negb (JsString.eqb (method req) (js "POST"))
            && negb (JsString.eqb (method req) (js "GET"))) eqn:E;
    [reflexivity|].
  apply method_accepted_inv in E. contradiction.
Qed.

(** X1.  The status of an answer is one of 200, 400, 401, 403, 405 and
    500; a 200 answer comes after exactly one upstream call; an answer
    401, 403 or 405 comes with none; and the status is 405 exactly when
    the method is neither POST nor GET. *)
Theorem statuses_and_upstream_calls
        (cfg : config) (h : host) (req : request) (r : response) :
  outcome (handler cfg h req) = Normal r ->
  In (status r) [200; 400; 401; 403; 405; 500]%Z /\
  (status r = 200%Z -> exists q, sent (handler cfg h req) = [q]) /\
  (In (status r) [401; 403; 405]%Z -> sent (handler cfg h req) = []) /\
  (status r = 405%Z <-> ~ (method req = js "POST" \/ method req = js "GET")).
Proof.
  intros Hr. split; [now apply handler_produced, produced_status in Hr|].
  assert (Hm405 : ~ (method req = js "POST" \/ method req = js "GET") ->
                  status r = 405%Z).
  { intros F. rewrite (method_rejected cfg h req F) in Hr.
    now injection Hr as <-. }
  destruct (handler_cases cfg h req)
    as [[Hm E] | [[_ E] | [[_ E] | [(_ & _ & E) | [[_ E] |
        [(_ & e & _ & E) | [(Hc & p & _ & _ & E) |
         (Hc & p & _ & _ & E)]]]]]]];
    rewrite E in Hr |- *; try discriminate Hr.
  1-6: injection Hr as <-; cbn [status sent answer outcome] in *.
  1-6: split; [intros S; discriminate S|].
  1-6: split; [reflexivity|].
  1-6: split; [|exact Hm405].
  - intros _. exact Hm.
  - intros S; discriminate S.
  - intros S; discriminate S.
  - intros S; discriminate S.
  - intros S; discriminate S.
  - intros S; discriminate S.
  - assert (Hst := generate_status h p r Hr).
    split; [|split; [|split; [|exact Hm405]]].
    + intros S. rewrite generate_unfold in Hr |- *.
      destruct (ToString (Number_toString h) p) as [u|e0];
        cbn [outcome sent] in *; [now eexists|].
      injection Hr as <-. discriminate S.
    + intros Hin. simpl in Hin.
      destruct Hst as [S | [S | S]]; rewrite S in Hin;
        destruct Hin as [F | [F | [F | []]]]; discriminate F.
    + intros S. destruct Hst as [T | [T | T]]; rewrite T in S;
        discriminate S.
Qed.

(** X4.  The handler throws, instead of answering, exactly when the
    request passes the checks of lines 58-94, is a POST, and its body is
    [undefined] or [null] (line 99 reads [req.body.prompt] outside the
    [try]). *)
Theorem handler_throws_iff_post_without_body
        (cfg : config) (h : host) (req : request) :
  (exists e, outcome (handler cfg h req) = Throw e) <->
  passes_checks cfg req /\ method req = js "POST" /\
  (body req = VUndefined \/ body req = VNull).
Proof.
  split.
  - intros [e He].
    destruct (handler_cases cfg h req)
      as [[_ E] | [[_ E] | [[_ E] | [(_ & _ & E) | [[_ E] |
          [(Hc & e' & Hp & E) | [(_ & p & _ & _ & E) |
           (_ & p & _ & _ & E)]]]]]]];
      rewrite E in He; try discriminate He.
    + split; [exact Hc|]. unfold userPrompt in Hp.
      destruct (JsString.eqb (method req) (js "POST")) eqn:Em.
      * apply str_eqb_eq in Em. split; [exact Em|].
        now apply Get_throws in Hp.
      * destruct (JsString.eqb (method req) (js "GET")); discriminate Hp.
    + rewrite generate_unfold in He.
      destruct (ToString (Number_toString h) p); discriminate He.
  - intros (Hc & Hm & Hb).
    rewrite (handler_checked _ _ _ Hc). unfold userPrompt.
    rewrite Hm, str_eqb_refl.
    destruct Hb as [-> | ->]; eexists; reflexivity.
Qed.

(** X5.  The upstream is called at most once, and only for a request
    that passes the checks with a truthy prompt whose conversion to a
    string succeeds: the text sent is then [SYSTEM_PROMPT], two line
    feeds, ["User: "], that string, a line feed and ["Response:"] (1452
    code units around the string, beginning with the first words of the
    instruction).  Such a request always makes this call, whatever the
    upstream then does; a request whose prompt cannot be converted makes
    none. *)
Theorem upstream_is_called_once_and_only_for_served_prompts
        (cfg : config) (h : host) (req : request) :
  (forall q,
      In q (sent (handler cfg h req)) ->
      sent (handler cfg h req) = [q] /\
      passes_checks cfg req /\
      exists p u,
        userPrompt req = Normal p /\ ToBoolean p = true /\
        ToString (Number_toString h) p = Normal u /\
        q = SYSTEM_PROMPT ++ [10; 10] ++ js "User: " ++ u ++ [10]
            ++ js "Response:" /\
        List.length q = (1452 + List.length u)%nat /\
        starts_with (js "You are QuickFix, a helpful assistant") q = true) /\
  (forall p u,
      passes_checks cfg req ->
      userPrompt req = Normal p -> ToBoolean p = true ->
      ToString (Number_toString h) p = Normal u ->
      sent (handler cfg h req)
      = [SYSTEM_PROMPT ++ [10; 10] ++ js "User: " ++ u ++ [10]
         ++ js "Response:"]) /\
  (forall p e,
      passes_checks cfg req ->
      userPrompt req = Normal p -> ToBoolean p = true ->
      ToString (Number_toString h) p = Throw e ->
      sent (handler cfg h req) = []).
Proof.
  split; [|split].
  - intros q Hq.
    destruct (handler_cases cfg h req)
      as [[_ E] | [[_ E] | [[_ E] | [(_ & _ & E) | [[_ E] |
          [(_ & e & _ & E) | [(_ & p & _ & _ & E) |
           (Hc & p & Hp & Ht & E)]]]]]]];
      rewrite E in Hq |- *; try contradiction.
    rewrite generate_unfold in Hq |- *.
    destruct (ToString (Number_toString h) p) as [u|e] eqn:Eu;
      cbn [sent] in *; [|contradiction].
    destruct Hq as [<- | []]. split; [reflexivity|]. split; [exact Hc|].
    exists p, u. split; [exact Hp|]. split; [exact Ht|].
    split; [exact Eu|]. split; [reflexivity|].
    split; [|reflexivity].
    unfold fullPrompt. rewrite !length_app.
    replace (List.length SYSTEM_PROMPT) with 1434%nat by reflexivity.
    cbn [List.length LF js list_ascii_of_string map]. lia.
  - intros p u Hc Hp Ht Hu.
    rewrite (handler_checked _ _ _ Hc), Hp, Ht. cbn [negb].
    rewrite generate_unfold, Hu. reflexivity.
  - intros p e Hc Hp Ht He.
    rewrite (handler_checked _ _ _ Hc), Hp, Ht. cbn [negb].
    rewrite generate_unfold, He. reflexivity.
Qed.

(** X6.  When [API_KEY] is not set or is empty, every GET or POST request
    is answered 500 "API_KEY is not configured on server.", whatever
    credential it carries: the check of lines 72-76 comes before the
    credential is looked at. *)
Theorem unconfigured_server_key_is_500_for_everyone
        (cfg : config) (h : host) (req : request) :
  method req = js "POST" \/ method req = js "GET" ->
  API_KEY cfg = None \/ API_KEY cfg = Some [] ->
  handler cfg h req
  = answer 500 (obj [("error", str "API_KEY is not configured on server.")]).
Proof.
  intros Hm Hk. unfold handler. rewrite (method_accepted _ Hm).
  destruct Hk as [-> | ->]; reflexivity.
Qed.

(** X7.  When [GEMINI_API_KEY] is not set or is empty, a request with
    the configured credential is answered 500 "GEMINI_API_KEY is not
    configured." before its prompt is read (so also when it has no body),
    and a request without that credential is still answered 401 or
    403. *)
Theorem unconfigured_upstream_key_is_500_after_the_credential
        (cfg : config) (h : host) (req : request) (key : jsstring) :
  method req = js "POST" \/ method req = js "GET" ->
  API_KEY cfg = Some key -> key <> [] ->
  GEMINI_API_KEY cfg = None \/ GEMINI_API_KEY cfg = Some [] ->
  (providedApiKey req = VStr key ->
   handler cfg h req
   = answer 500 (obj [("error", str "GEMINI_API_KEY is not configured.")]))
  /\
  (providedApiKey req <> VStr key ->
   exists r, outcome (handler cfg h req) = Normal r /\
             (status r = 401%Z \/ status r = 403%Z)).
Proof.
  intros Hm Hk Hne Hg.
  assert (Hcfg : ToBoolean (of_option (API_KEY cfg)) = true)
    by (rewrite Hk; now apply ToBoolean_str).
  unfold handler. rewrite (method_accepted _ Hm), Hcfg, Hk.
  cbn [negb of_option]. split.
  - intros Hp. rewrite Hp. apply ToBoolean_str in Hne. rewrite Hne.
    cbn [negb strict_equal]. rewrite str_eqb_refl. cbn [negb].
    destruct Hg as [-> | ->]; reflexivity.
  - intros Hp. destruct (ToBoolean (providedApiKey req)); cbn [negb].
    + destruct (strict_equal (providedApiKey req) (VStr key)) eqn:E.
      * apply strict_equal_string in E. contradiction.
      * eexists. split; [reflexivity|]. now right.
    + eexists. split; [reflexivity|]. now left.
Qed.

(** *** The credential channels *)

Lemma replace_at_start (pat by_ s : jsstring) :
  starts_with pat s = true ->
  JsString.replace pat by_ s = by_ ++ skipn (List.length pat) s.
Proof. intros H. destruct s; cbn [JsString.replace]; now rewrite H. Qed.

Lemma starts_with_app (pat k : jsstring) : starts_with pat (pat ++ k) = true.
Proof.
  induction pat as [|c pat IH]; [reflexivity|].
  cbn [app starts_with]. now rewrite N.eqb_refl, IH.
Qed.

Lemma skipn_app_length (pat k : jsstring) :
  skipn (List.length pat) (pat ++ k) = k.
Proof. induction pat as [|c pat IH]; [reflexivity | exact IH]. Qed.

Lemma replace_prefix (pat by_ k : jsstring) :
  JsString.replace pat by_ (pat ++ k) = by_ ++ k.
Proof.
  rewrite replace_at_start by apply starts_with_app.
  now rewrite skipn_app_length.
Qed.

Lemma or_else_left (a b : value) : ToBoolean a = true -> or_else a b = a.
Proof. intros H. unfold or_else. now rewrite H. Qed.

Lemma or_else_right (a b : value) : ToBoolean a = false -> or_else a b = b.
Proof. intros H. unfold or_else. now rewrite H. Qed.

(** X8.  A non-empty [x-api-key] header is the credential, whatever the
    [Authorization] header and the [api_key] parameter hold: if it differs
    from the configured key the answer is 403. *)
Theorem header_key_shadows_the_other_channels
        (cfg : config) (h : host) (req : request) (key k : jsstring) :
  method req = js "POST" \/ method req = js "GET" ->
  API_KEY cfg = Some key -> key <> [] ->
  own (headers req) (js "x-api-key") = Some k -> k <> [] ->
  providedApiKey req = VStr k /\
  (k <> key ->
   handler cfg h req = answer 403 (obj [("error", str "Invalid API key.")])).
Proof.
  intros Hm Hk Hne Hx Hkne.
  assert (Tk : ToBoolean (VStr k) = true) by now apply ToBoolean_str.
  assert (Tkey : ToBoolean (VStr key) = true) by now apply ToBoolean_str.
  assert (Hp : providedApiKey req = VStr k).
  { unfold providedApiKey, header, or_else. rewrite Hx.
    cbn [of_option]. now rewrite !Tk. }
  split; [exact Hp|]. intros Hd. unfold handler.
  rewrite (method_accepted _ Hm), Hk, Hp. cbn [of_option].
  rewrite Tkey, Tk. cbn [negb strict_equal].
  destruct (JsString.eqb k key) eqn:E; [|reflexivity].
  apply str_eqb_eq in E. contradiction.
Qed.

(** X9.  With no (or an empty) [x-api-key] header, the credential of a
    request whose [Authorization] header is ["Bearer "] followed by a
    non-empty token is that token; if it is the configured key, the method
    is accepted and the upstream key is configured, the request passes the
    checks. *)
Theorem bearer_token_is_the_credential
        (cfg : config) (req : request) (token : jsstring) :
  own (headers req) (js "x-api-key") = None
  \/ own (headers req) (js "x-api-key") = Some [] ->
  own (headers req) (js "authorization") = Some (js "Bearer " ++ token) ->
  token <> [] ->
  providedApiKey req = VStr token /\
  (method req = js "POST" \/ method req = js "GET" ->
   API_KEY cfg = Some token ->
   (exists g, GEMINI_API_KEY cfg = Some g /\ g <> []) ->
   passes_checks cfg req).
Proof.
  intros Hx Ha Ht.
  assert (Hp : providedApiKey req = VStr token).
  { unfold providedApiKey, header, bearer. rewrite Ha.
    rewrite (replace_prefix (js "Bearer ") [] token). cbn [app].
    apply ToBoolean_str in Ht.
    rewrite (or_else_left (or_else _ _)).
    - destruct Hx as [-> | ->]; now apply or_else_right.
    - destruct Hx as [-> | ->]; now rewrite or_else_right. }
  split; [exact Hp|]. intros Hm Hk Hg.
  split; [exact Hm|]. split; [|exact Hg].
  exists token. repeat split; assumption.
Qed.

(** X10.  Where the prompt comes from: for a POST, the [prompt] of the
    body (the query is not read); for a GET, the [prompt] parameter when
    it is a non-empty string, and the [q] parameter when [prompt] is absent
    or empty.  In each case the one text sent upstream is
    [SYSTEM_PROMPT], two line feeds, ["User: "], that very string, a line
    feed and ["Response:"]. *)
Theorem prompt_source_by_method
        (cfg : config) (h : host) (req : request) (s : jsstring) :
  passes_checks cfg req -> s <> [] ->
  (method req = js "POST" ->
   Get (body req) (js "prompt") = Normal (VStr s) ->
   sent (handler cfg h req)
   = [SYSTEM_PROMPT ++ [10; 10] ++ js "User: " ++ s ++ [10]
      ++ js "Response:"]) /\
  (method req = js "GET" ->
   param req "prompt" = VStr s ->
   sent (handler cfg h req)
   = [SYSTEM_PROMPT ++ [10; 10] ++ js "User: " ++ s ++ [10]
      ++ js "Response:"]) /\
  (method req = js "GET" ->
   absent_or_empty (param req "prompt") ->
   param req "q" = VStr s ->
   sent (handler cfg h req)
   = [SYSTEM_PROMPT ++ [10; 10] ++ js "User: " ++ s ++ [10]
      ++ js "Response:"]).
Proof.
  intros Hc Hs. apply ToBoolean_str in Hs.
  assert (Hgp : JsString.eqb (js "GET") (js "POST") = false) by reflexivity.
  rewrite (handler_checked _ _ _ Hc). unfold userPrompt.
  split; [|split].
  - intros Hm Hp. rewrite Hm, str_eqb_refl, Hp, Hs. cbn [negb].
    rewrite generate_unfold. reflexivity.
  - intros Hm Hp. rewrite Hm, Hgp, str_eqb_refl, Hp.
    unfold or_else. rewrite !Hs. cbn [negb].
    rewrite generate_unfold. reflexivity.
  - intros Hm Hp Hq. rewrite Hm, Hgp, str_eqb_refl, Hq.
    unfold or_else. rewrite (absent_or_empty_falsy _ Hp), Hs. cbn [negb].
    rewrite generate_unfold. reflexivity.
Qed.

(** X11.  When the prompt is truthy but its conversion to a string in
    the template literal throws, the answer is the 500 of the outer
    [catch] with the message of the error, and the upstream is not
    called. *)
Theorem unprintable_prompt_is_500_without_upstream_call
        (cfg : config) (h : host) (req : request) (p : value) (e : error) :
  passes_checks cfg req ->
  userPrompt req = Normal p -> ToBoolean p = true ->
  ToString (Number_toString h) p = Throw e ->
  handler cfg h req
  = {| outcome := Normal (failure_response e); sent := [] |}.
Proof.
  intros Hc Hp Ht He.
  rewrite (handler_checked _ _ _ Hc), Hp, Ht. cbn [negb].
  now rewrite generate_unfold, He.
Qed.

(** X12.  When the cleaned upstream text parses to [null], reading the
    required fields throws inside the outer [try]: the answer is the 500
    of the [catch], with [success: false] and no [data], not a degraded
    200. *)
Theorem null_answer_is_a_server_error
        (cfg : config) (h : host) (req : request) (g : generation) :
  upstream_returns cfg h req g ->
  Json.parse (cleanText (text g)) = Some VNull ->
  exists r e,
    outcome (handler cfg h req) = Normal r /\
    r = failure_response e /\
    status r = 500%Z /\
    at_path (json r) ["success"] = VBool false /\
    at_path (json r) ["error"] = str "Failed to generate response" /\
    has_own (json r) "data" = false.
Proof.
  intros Hup Hparse.
  destruct (handler_upstream_returns _ _ _ _ Hup) as [u ->].
  rewrite (after_generation_parsed _ _ _ Hparse).
  eexists. eexists. split; [reflexivity|]. repeat split.
Qed.

(** X13.  When the cleaned upstream text parses to a boolean, a number,
    a string or an array, the answer is the 200 fallback in which every
    field of [data] has its default, [content] is the raw text and the
    warning lists title, summary and steps. *)
Theorem non_object_answer_gets_every_default
        (cfg : config) (h : host) (req : request) (g : generation)
        (v : value) :
  upstream_returns cfg h req g ->
  Json.parse (cleanText (text g)) = Some v ->
  not_an_object v ->
  exists r,
    outcome (handler cfg h req) = Normal r /\
    status r = 200%Z /\
    (forall k, In k answer_fields ->
               at_path (json r) ["data"; k] = field_default k) /\
    at_path (json r) ["data"; "content"] = VStr (text g) /\
    at_path (json r) ["metadata"; "warning"]
    = str "Missing fields: title, summary, steps".
Proof.
  intros Hup Hparse Hv.
  destruct (handler_upstream_returns _ _ _ _ Hup) as [u ->].
  rewrite (after_generation_parsed _ _ _ Hparse).
  destruct v; try contradiction;
    (eexists; split; [reflexivity|]; split; [reflexivity|];
     split; [|split; reflexivity];
     intros k Hk; simpl in Hk;
     repeat (destruct Hk as [<- | Hk]; [reflexivity|]); contradiction).
Qed.

(** X14.  When the parsed object has truthy [title], [summary] and
    [steps], the answer is 200 with these three as they are (whatever
    their type), [tips], [timeEstimate] and [difficulty] as they are when
    truthy and defaulted to the empty array, "Unknown" and "unknown"
    otherwise, no [content] and no [warning]. *)
Theorem complete_answer_is_passed_through
        (cfg : config) (h : host) (req : request) (g : generation)
        (props : list (jsstring * value)) :
  upstream_returns cfg h req g ->
  Json.parse (cleanText (text g)) = Some (VObj props) ->
  falsy_required (VObj props) = [] ->
  exists r,
    outcome (handler cfg h req) = Normal r /\
    status r = 200%Z /\
    at_path (json r) ["success"] = VBool true /\
    at_path (json r) ["data"; "title"] = at_path (VObj props) ["title"] /\
    at_path (json r) ["data"; "summary"] = at_path (VObj props) ["summary"] /\
    at_path (json r) ["data"; "steps"] = at_path (VObj props) ["steps"] /\
    at_path (json r) ["data"; "tips"]
    = or_else (at_path (VObj props) ["tips"]) (VArr []) /\
    at_path (json r) ["data"; "timeEstimate"]
    = or_else (at_path (VObj props) ["timeEstimate"]) (str "Unknown") /\
    at_path (json r) ["data"; "difficulty"]
    = or_else (at_path (VObj props) ["difficulty"]) (str "unknown") /\
    has_own (at_path (json r) ["data"]) "content" = false /\
    at_path (json r) ["metadata"; "stepCount"]
    = or_else (at_path (VObj props) ["steps"; "length"]) (VNum (of_nat 0)) /\
    has_own (at_path (json r) ["metadata"]) "warning" = false.
Proof.
  intros Hup Hparse Hm.
  destruct (handler_upstream_returns _ _ _ _ Hup) as [u ->].
  rewrite (after_generation_parsed _ _ _ Hparse).
  unfold validate_and_respond.
  rewrite missing_among_defined by discriminate. cbn [bind].
  rewrite Hm. cbn [List.length Nat.ltb Nat.leb].
  unfold structured_response.
  rewrite !(Get_defined (VObj props)) by discriminate. cbn [bind].
  rewrite GetOptional_total. cbn [bind].
  eexists. split; [reflexivity|]. repeat split.
Qed.

(** *** The Number of a length *)

Local Open Scope Z_scope.

Lemma shr_1_nonneg (mrs : shr_record) :
  0 <= shr_m mrs -> 0 <= shr_m (shr_1 mrs).
Proof.
  destruct mrs as [m r s]. cbn [shr_m]. intros H.
  destruct m as [|p|p]; [cbn; lia | | lia].
  destruct p; cbn; lia.
Qed.

Lemma iter_pos_nonneg (p : positive) (mrs : shr_record) :
  0 <= shr_m mrs -> 0 <= shr_m (iter_pos shr_1 p mrs).
Proof.
  revert mrs. induction p as [p IH | p IH |]; intros mrs H; cbn [iter_pos].
  - apply IH, IH, shr_1_nonneg, H.
  - apply IH, IH, H.
  - apply shr_1_nonneg, H.
Qed.

Lemma shr_fexp_nonneg (m e : Z) (l : location) :
  0 <= m -> 0 <= shr_m (fst (shr_fexp prec emax m e l)).
Proof.
  intros H. unfold shr_fexp, shr.
  assert (H0 : 0 <= shr_m (shr_record_of_loc m l))
    by (destruct l as [|[]]; exact H).
  destruct (fexp prec emax (Zdigits2 m + e) - e); cbn [fst];
    [exact H0 | now apply iter_pos_nonneg | exact H0].
Qed.

Lemma round_nearest_even_nonneg (m : Z) (l : location) :
  0 <= m -> 0 <= round_nearest_even m l.
Proof.
  intros H. unfold round_nearest_even.
  destruct l as [|[]]; try destruct (Z.even m); lia.
Qed.

Lemma binary_round_aux_not_nan (sx : bool) (m e : Z) (l : location) :
  0 <= m -> binary_round_aux prec emax sx m e l <> S754_nan.
Proof.
  intros H. unfold binary_round_aux.
  pose proof (shr_fexp_nonneg m e l H) as H1.
  destruct (shr_fexp prec emax m e l) as [mrs' e'] eqn:E1. cbn [fst] in H1.
  pose proof (shr_fexp_nonneg
                (round_nearest_even (shr_m mrs') (loc_of_shr_record mrs'))
                e' loc_Exact (round_nearest_even_nonneg _ _ H1)) as H2.
  destruct (shr_fexp prec emax _ e' loc_Exact) as [mrs'' e''] eqn:E2.
  cbn [fst] in H2.
  destruct (shr_m mrs'') as [|p|p]; [discriminate | | lia].
  destruct (e'' <=? emax - prec); discriminate.
Qed.

Lemma binary_round_aux_sign (sx : bool) (m e : Z) (l : location) (s : bool) :
  binary_round_aux prec emax sx m e l = S754_zero s -> s = sx.
Proof.
  unfold binary_round_aux.
  destruct (shr_fexp prec emax m e l) as [mrs' e'].
  destruct (shr_fexp prec emax _ e' loc_Exact) as [mrs'' e''].
  destruct (shr_m mrs'') as [|p|p]; [congruence | | discriminate].
  destruct (e'' <=? emax - prec); discriminate.
Qed.

Lemma of_nat_falsy (n : nat) :
  JsNumber.truthy (of_nat n) = false -> of_nat n = of_nat 0.
Proof.
  unfold of_nat, binary_normalize.
  destruct (Z.of_nat n) as [|p|p] eqn:E; [reflexivity | | lia].
  unfold binary_round.
  destruct (shl_align p 0 (fexp prec emax (Z.pos (digits2_pos p) + 0)))
    as [mz ez].
  destruct (binary_round_aux prec emax false (Z.pos mz) ez loc_Exact) eqn:B;
    cbn [JsNumber.truthy]; try discriminate; intros _.
  - apply binary_round_aux_sign in B. now subst.
  - now apply binary_round_aux_not_nan in B.
Qed.

Local Close Scope Z_scope.

Lemma delete_all_go_plain (lit s t : jsstring) :
  no_backquote s ->
  delete_all_go (96 :: lit) O false (s ++ t)
  = s ++ delete_all_go (96 :: lit) O false t.
Proof.
  induction 1 as [|c s Hc Hs IH]; [reflexivity|].
  cbn [app delete_all_go andb starts_with].
  replace (N.eqb 96 c) with false by (symmetry; apply N.eqb_neq; congruence).
  cbn [andb]. now rewrite IH.
Qed.

Lemma trim_start_length (s : jsstring) :
  (List.length (trim_start s) <= List.length s)%nat.
Proof.
  induction s as [|c s IH]; cbn [trim_start]; [lia|].
  destruct (is_trim_space c); cbn [List.length]; lia.
Qed.

Lemma trim_start_fixed (c : N) (s : jsstring) :
  trim_start (c :: s) = c :: s -> is_trim_space c = false.
Proof.
  cbn [trim_start]. destruct (is_trim_space c); [|reflexivity].
  intros H. pose proof (trim_start_length s) as L. rewrite H in L.
  cbn [List.length] in L. lia.
Qed.

Lemma trim_tight (b : jsstring) : tight b -> trim b = b.
Proof.
  intros [H1 H2]. unfold trim. now rewrite H1, H2, rev_involutive.
Qed.

Lemma trim_tight_line (b : jsstring) : tight b -> trim (b ++ LF) = b.
Proof.
  intros [H1 H2]. unfold trim, LF.
  destruct b as [|c b]; [reflexivity|].
  apply trim_start_fixed in H1.
  cbn [app trim_start]. rewrite H1.
  change (c :: b ++ [10]) with ((c :: b) ++ [10]).
  rewrite rev_app_distr. cbn [rev app trim_start].
  replace (is_trim_space 10) with true by reflexivity.
  change (rev b ++ [c]) with (rev (c :: b)).
  now rewrite H2, rev_involutive.
Qed.

Lemma delete_all_go_after_match (lit s : jsstring) :
  (forall s', s <> 10 :: s') ->
  delete_all_go lit O true s = delete_all_go lit O false s.
Proof.
  intros H. destruct s as [|c s]; [reflexivity|].
  cbn [delete_all_go andb]. destruct (N.eqb c 10) eqn:E; [|reflexivity].
  apply N.eqb_eq in E. subst c. now elim (H s).
Qed.

Lemma tight_app_no_line (b t : jsstring) :
  tight b -> (forall s', t <> 10 :: s') -> forall s', b ++ t <> 10 :: s'.
Proof.
  intros [H1 _] Ht s'. destruct b as [|c b]; [apply Ht|].
  apply trim_start_fixed in H1. cbn [app]. intros E. injection E as -> _.
  discriminate H1.
Qed.

Lemma cleanText_fenced (b : jsstring) :
  no_backquote b -> tight b ->
  cleanText (js "```json" ++ LF ++ b ++ LF ++ js "```") = b /\
  cleanText (js "```" ++ LF ++ b ++ LF ++ js "```") = b /\
  cleanText (js "```json" ++ b ++ js "```") = b /\
  cleanText b = b.
Proof.
  intros Hb Ht. unfold cleanText, delete_all.
  assert (P1 : forall t, delete_all_go (js "```json") O false (b ++ t)
                         = b ++ delete_all_go (js "```json") O false t)
    by (intros t; now apply (delete_all_go_plain _ b t)).
  assert (P2 : forall t, delete_all_go (js "```") O false (b ++ t)
                         = b ++ delete_all_go (js "```") O false t)
    by (intros t; now apply (delete_all_go_plain _ b t)).
  repeat split.
  - change (delete_all_go (js "```json") O false
              (js "```json" ++ LF ++ b ++ LF ++ js "```"))
      with (delete_all_go (js "```json") O false (b ++ LF ++ js "```")).
    rewrite P1, P2. now apply trim_tight_line.
  - change (delete_all_go (js "```json") O false
              (js "```" ++ LF ++ b ++ LF ++ js "```"))
      with (js "```" ++ LF
            ++ delete_all_go (js "```json") O false (b ++ LF ++ js "```")).
    rewrite P1.
    change (delete_all_go (js "```") O false
              (js "```" ++ LF ++ b ++ _))
      with (delete_all_go (js "```") O false (b ++ LF ++ js "```")).
    rewrite P2. now apply trim_tight_line.
  - change (delete_all_go (js "```json") O false
              (js "```json" ++ b ++ js "```"))
      with (delete_all_go (js "```json") O true (b ++ js "```")).
    rewrite delete_all_go_after_match
      by (apply tight_app_no_line; [exact Ht | discriminate]).
    rewrite P1, P2. change (b ++ []) with (b ++ []).
    rewrite app_nil_r. now apply trim_tight.
  - rewrite <- (app_nil_r b) at 1. rewrite P1.
    change (delete_all_go (js "```json") O false []) with (@nil N).
    rewrite P2. cbn [delete_all_go]. rewrite app_nil_r.
    now apply trim_tight.
Qed.

(** *** No fence marker reaches the parser *)

Lemma delete_all_go_head (s : jsstring) :
  starts_with [96] (delete_all_go (js "```") O false s) = true ->
  starts_with [96] s = true.
Proof.
  destruct s as [|c s]; [discriminate|].
  cbn [delete_all_go andb].
  destruct (starts_with (js "```") (c :: s)) eqn:E.
  - intros _. cbn [starts_with] in *.
    change (js "```") with [96; 96; 96] in E. cbn [starts_with] in E.
    apply andb_true_iff in E as [E _]. now rewrite E.
  - intros H. exact H.
Qed.

Lemma starts_with_one (s : jsstring) :
  starts_with [96] s = true -> exists s', s = 96 :: s'.
Proof.
  destruct s as [|c s]; [discriminate|]. cbn [starts_with].
  rewrite andb_true_r. intros H. apply N.eqb_eq in H. subst c. now exists s.
Qed.

Lemma delete_all_go_no_fence (s : jsstring) :
  forall skip nl,
    occurs (js "```") (delete_all_go (js "```") skip nl s) = false.
Proof.
  induction s as [|c s IH]; intros skip nl; [reflexivity|].
  cbn [delete_all_go]. destruct skip as [|k]; [|apply IH].
  destruct (nl && N.eqb c 10); [apply IH|].
  destruct (starts_with (js "```") (c :: s)) eqn:E; [apply IH|].
  cbn [occurs]. rewrite IH, orb_false_r.
  destruct (starts_with (js "```") (c :: delete_all_go (js "```") O false s))
    eqn:F; [exfalso | reflexivity].
  change (js "```") with [96; 96; 96] in E, F. cbn [starts_with] in E, F.
  apply andb_true_iff in F as [Fc F]. rewrite Fc in E. cbn [andb] in E.
  (* the output begins with two backquotes, the input does not *)
  destruct (delete_all_go [96; 96; 96] O false s) as [|d out] eqn:O;
    [discriminate F|].
  apply andb_true_iff in F as [Fd F]. apply N.eqb_eq in Fd. subst d.
  destruct (starts_with_one s) as [s' ->].
  { apply delete_all_go_head. change (js "```") with [96; 96; 96].
    now rewrite O. }
  cbn [starts_with] in E. rewrite N.eqb_refl in E. cbn [andb] in E.
  assert (E2 : starts_with [96; 96] s' = false).
  { destruct s' as [|y s'']; [reflexivity|]. cbn [starts_with] in E |- *.
    rewrite andb_true_r in E. now rewrite E. }
  cbn [delete_all_go andb starts_with] in O.
  rewrite N.eqb_refl in O. cbn [andb] in O.
  change (match s' with
          | [] => false
          | y :: s0 => N.eqb 96 y && match s0 with
                                     | [] => false
                                     | y0 :: _ => N.eqb 96 y0 && true
                                     end
          end) with (starts_with [96; 96] s') in O.
  rewrite E2 in O. injection O as O. rewrite <- O in F.
  assert (F1 : starts_with [96] (delete_all_go [96; 96; 96] 0 false s')
               = true).
  { destruct (delete_all_go [96; 96; 96] 0 false s'); [discriminate F|].
    cbn [starts_with] in F |- *. apply andb_true_iff in F as [F _].
    now rewrite F. }
  apply delete_all_go_head in F1.
  change (starts_with [96] s' = false) in E. congruence.
Qed.

Lemma starts_with_prefix (lit s b : jsstring) :
  starts_with lit s = true -> starts_with lit (s ++ b) = true.
Proof.
  revert s. induction lit as [|x lit IH]; intros s H; [reflexivity|].
  destruct s as [|c s]; [discriminate|].
  cbn [app starts_with] in *. apply andb_true_iff in H as [Hx H].
  now rewrite Hx, (IH _ H).
Qed.

Lemma occurs_prefix (lit s b : jsstring) :
  occurs lit (s ++ b) = false -> occurs lit s = false.
Proof.
  induction s as [|c s IH]; cbn [app occurs].
  - intros H. destruct lit; [|reflexivity].
    destruct b; discriminate H.
  - intros H. apply orb_false_iff in H as [H1 H2].
    rewrite (IH H2), orb_false_r.
    destruct (starts_with lit (c :: s)) eqn:E; [|reflexivity].
    apply (starts_with_prefix _ _ b) in E. cbn [app] in E. congruence.
Qed.

Lemma occurs_trim_start (lit s : jsstring) :
  occurs lit s = false -> occurs lit (trim_start s) = false.
Proof.
  induction s as [|c s IH]; [trivial|]. cbn [trim_start].
  destruct (is_trim_space c); [|trivial].
  intros H. cbn [occurs] in H. apply orb_false_iff in H as [_ H]. auto.
Qed.

Lemma trim_start_suffix (s : jsstring) :
  exists a, s = a ++ trim_start s.
Proof.
  induction s as [|c s [a IH]]; [now exists []|]. cbn [trim_start].
  destruct (is_trim_space c); [|now exists []].
  exists (c :: a). cbn [app]. now rewrite <- IH.
Qed.

Lemma occurs_trim (lit s : jsstring) :
  occurs lit s = false -> occurs lit (trim s) = false.
Proof.
  intros H. apply occurs_trim_start in H. unfold trim.
  destruct (trim_start_suffix (rev (trim_start s))) as [a Ha].
  apply (f_equal (@rev N)) in Ha. rewrite rev_involutive, rev_app_distr in Ha.
  rewrite Ha in H. now apply occurs_prefix in H.
Qed.

(** X18.  Whatever the upstream text, no triple backquote is left in
    the cleaned text that is handed to [JSON.parse]. *)
Theorem cleanText_leaves_no_fence (text : jsstring) :
  occurs (js "```") (cleanText text) = false.
Proof.
  unfold cleanText, delete_all. apply occurs_trim, delete_all_go_no_fence.
Qed.


(** *** The count of steps *)

Lemma handler_structured
      (cfg : config) (h : host) (req : request) (g : generation) (v : value) :
  upstream_returns cfg h req g ->
  Json.parse (cleanText (text g)) = Some v ->
  v <> VUndefined -> v <> VNull -> falsy_required v = [] ->
  outcome (handler cfg h req) = Normal (caught (structured_response h v)).
Proof.
  intros Hup Hparse Hu Hn Hm.
  destruct (handler_upstream_returns _ _ _ _ Hup) as [u ->].
  rewrite (after_generation_parsed _ _ _ Hparse).
  unfold validate_and_respond.
  rewrite missing_among_defined by assumption. cbn [bind].
  now rewrite Hm.
Qed.

Lemma or_else_of_nat (n : nat) :
  or_else (VNum (of_nat n)) (VNum (of_nat 0)) = VNum (of_nat n).
Proof.
  unfold or_else. cbn [ToBoolean].
  destruct (JsNumber.truthy (of_nat n)) eqn:E; [reflexivity|].
  now rewrite (of_nat_falsy n E).
Qed.

(** X15.  On the structured path [metadata.stepCount] is the number of
    elements of [steps] when that is an array, the number of code units
    when it is a string, and 0 when it is [true] or a number. *)
Theorem step_count_is_the_length_of_steps
        (cfg : config) (h : host) (req : request) (g : generation)
        (props : list (jsstring * value)) :
  upstream_returns cfg h req g ->
  Json.parse (cleanText (text g)) = Some (VObj props) ->
  falsy_required (VObj props) = [] ->
  exists r,
    outcome (handler cfg h req) = Normal r /\
    (forall l, at_path (VObj props) ["steps"] = VArr l ->
               at_path (json r) ["metadata"; "stepCount"]
               = VNum (of_nat (List.length l))) /\
    (forall s, at_path (VObj props) ["steps"] = VStr s ->
               at_path (json r) ["metadata"; "stepCount"]
               = VNum (of_nat (List.length s))) /\
    (forall x, at_path (VObj props) ["steps"] = x ->
               (exists b, x = VBool b) \/ (exists n, x = VNum n) ->
               at_path (json r) ["metadata"; "stepCount"]
               = VNum (of_nat 0)).
Proof.
  intros Hup Hparse Hm.
  rewrite (handler_structured _ _ _ _ _ Hup Hparse) by (discriminate || assumption).
  unfold structured_response.
  rewrite !(Get_defined (VObj props)) by discriminate. cbn [bind].
  rewrite GetOptional_total. cbn [bind caught].
  eexists. split; [reflexivity|].
  change (at_path (json _) ["metadata"; "stepCount"])
    with (or_else (at_path (at_path (VObj props) ["steps"]) ["length"])
                  (VNum (of_nat 0))).
  split; [|split].
  - intros l ->. apply or_else_of_nat.
  - intros s ->. apply or_else_of_nat.
  - intros x -> [[b ->] | [n ->]]; reflexivity.
Qed.

(** X16.  A text without a backquote is only trimmed by the cleaning
    of lines 146-149. *)
Theorem text_without_backquotes_is_only_trimmed (t : jsstring) :
  no_backquote t -> cleanText t = trim t.
Proof.
  intros H. unfold cleanText, delete_all.
  assert (P1 := delete_all_go_plain (tl (js "```json")) t [] H).
  assert (P2 := delete_all_go_plain (tl (js "```")) t [] H).
  change (96 :: tl (js "```json")) with (js "```json") in P1.
  change (96 :: tl (js "```")) with (js "```") in P2.
  rewrite app_nil_r in P1, P2. cbn [delete_all_go] in P1, P2.
  rewrite app_nil_r in P1, P2. now rewrite P1, P2.
Qed.

(** X17.  For a text [b] without backquotes that neither starts nor
    ends with white space, the cleaning of lines 146-149 gives [b] back
    from [b] inside a [json] fence or a plain fence (with line feeds) and
    from [b] between a [json] fence and a closing fence without line
    feeds; and when [b] parses to a value with no required field missing,
    the fenced text gets the very response of [b]. *)
Theorem fence_around_an_answer_is_transparent (h : host) (b : jsstring) :
  no_backquote b -> tight b ->
  cleanText (js "```json" ++ LF ++ b ++ LF ++ js "```") = b /\
  cleanText (js "```" ++ LF ++ b ++ LF ++ js "```") = b /\
  cleanText (js "```json" ++ b ++ js "```") = b /\
  (forall v,
      Json.parse b = Some v -> falsy_required v = [] ->
      parse_and_respond h (js "```json" ++ LF ++ b ++ LF ++ js "```")
      = parse_and_respond h b /\
      parse_and_respond h (js "```" ++ LF ++ b ++ LF ++ js "```")
      = parse_and_respond h b).
Proof.
  intros Hb Ht.
  destruct (cleanText_fenced b Hb Ht) as (C1 & C2 & C3 & C4).
  split; [exact C1|]. split; [exact C2|]. split; [exact C3|].
  intros v Hparse Hm.
  unfold parse_and_respond. rewrite C1, C2, C4, Hparse.
  assert (E : forall t, validate_and_respond h t v
                        = validate_and_respond h b v).
  { intros t. unfold validate_and_respond.
    destruct v; try reflexivity;
      (rewrite missing_among_defined by discriminate; cbn [bind];
       now rewrite Hm). }
  now rewrite !E.
Qed.


(** *** Witnesses *)

Lemma statuses_and_upstream_calls_witness :
  In (status (answer_of served_run)) [200; 400; 401; 403; 405; 500]%Z /\
  exists q, sent served_run = [q].
Proof.
  destruct (statuses_and_upstream_calls
              sample_config (sample_host (returns_text complete_answer))
              (sample_post (str "How can I make pasta?"))
              (answer_of served_run) eq_refl) as (H1 & H2 & _).
  split; [exact H1 | apply H2; reflexivity].
Defined.

Lemma success_and_error_envelopes_witness :
  at_path (json (answer_of served_run)) ["metadata"; "model"] = VStr MODEL_ID
  /\ exists k, metadata_extras (answer_of served_run) = [k].
Proof.
  destruct (success_and_error_envelopes
              sample_config (sample_host (returns_text complete_answer))
              (sample_post (str "How can I make pasta?"))
              (answer_of served_run) eq_refl) as (_ & H & _).
  destruct (H eq_refl) as (_ & Hm & Hk & _). split; assumption.
Defined.

Lemma every_field_of_a_success_is_truthy_witness :
  ToBoolean (at_path (json (answer_of served_run)) ["data"; "tips"]) = true.
Proof.
  apply (every_field_of_a_success_is_truthy
           sample_config (sample_host (returns_text complete_answer))
           (sample_post (str "How can I make pasta?"))
           (answer_of served_run) "tips").
  - reflexivity.
  - reflexivity.
  - simpl. tauto.
Defined.

Lemma handler_throws_iff_post_without_body_witness :
  exists e,
    outcome (handler sample_config (sample_host (returns_text not_json))
                     post_without_body) = Throw e.
Proof.
  apply (handler_throws_iff_post_without_body
           sample_config (sample_host (returns_text not_json))
           post_without_body).
  split; [|split; [reflexivity | left; reflexivity]].
  split; [left; reflexivity|]. split.
  - exists (js "secret"). repeat split. discriminate.
  - exists (js "upstream-key"). split; [reflexivity | discriminate].
Defined.

Lemma upstream_is_called_once_witness :
  sent (handler sample_config (sample_host (Throw upstream_down))
                (sample_post (str "How can I make pasta?")))
  = [SYSTEM_PROMPT ++ [10; 10] ++ js "User: How can I make pasta?"
     ++ [10] ++ js "Response:"].
Proof.
  destruct (upstream_is_called_once_and_only_for_served_prompts
              sample_config (sample_host (Throw upstream_down))
              (sample_post (str "How can I make pasta?"))) as (_ & H & _).
  apply (H (str "How can I make pasta?")).
  - apply sample_post_passes.
  - reflexivity.
  - reflexivity.
  - reflexivity.
Defined.

Lemma unconfigured_server_key_witness :
  handler {| GEMINI_API_KEY := Some (js "upstream-key"); API_KEY := None |}
          (sample_host (returns_text not_json)) bare_get
  = answer 500 (obj [("error", str "API_KEY is not configured on server.")]).
Proof.
  apply unconfigured_server_key_is_500_for_everyone.
  - right. reflexivity.
  - left. reflexivity.
Defined.

Lemma unconfigured_upstream_key_witness :
  handler {| GEMINI_API_KEY := None; API_KEY := Some (js "secret") |}
          (sample_host (returns_text not_json)) post_without_body
  = answer 500 (obj [("error", str "GEMINI_API_KEY is not configured.")]).
Proof.
  destruct (unconfigured_upstream_key_is_500_after_the_credential
              {| GEMINI_API_KEY := None; API_KEY := Some (js "secret") |}
              (sample_host (returns_text not_json)) post_without_body
              (js "secret")) as [H _].
  - left. reflexivity.
  - reflexivity.
  - discriminate.
  - left. reflexivity.
  - apply H. reflexivity.
Defined.

Lemma header_key_shadows_witness :
  handler sample_config (sample_host (returns_text not_json)) shadowed_post
  = answer 403 (obj [("error", str "Invalid API key.")]).
Proof.
  destruct (header_key_shadows_the_other_channels
              sample_config (sample_host (returns_text not_json))
              shadowed_post (js "secret") (js "guess")) as [_ H].
  - left. reflexivity.
  - reflexivity.
  - discriminate.
  - reflexivity.
  - discriminate.
  - apply H. discriminate.
Defined.

Lemma bearer_token_witness :
  providedApiKey bearer_get = str "secret" /\
  passes_checks sample_config bearer_get.
Proof.
  destruct (bearer_token_is_the_credential
              sample_config bearer_get (js "secret")) as [H1 H2].
  - right. reflexivity.
  - reflexivity.
  - discriminate.
  - split; [exact H1|]. apply H2.
    + right. reflexivity.
    + reflexivity.
    + exists (js "upstream-key"). split; [reflexivity | discriminate].
Defined.

Lemma bearer_get_passes : passes_checks sample_config bearer_get.
Proof.
  split; [right; reflexivity|]. split.
  - exists (js "secret"). repeat split. discriminate.
  - exists (js "upstream-key"). split; [reflexivity | discriminate].
Defined.

Lemma prompt_source_witness :
  sent (handler sample_config (sample_host (returns_text not_json)) bearer_get)
  = [SYSTEM_PROMPT ++ [10; 10] ++ js "User: How can I make pasta?"
     ++ [10] ++ js "Response:"].
Proof.
  destruct (prompt_source_by_method
              sample_config (sample_host (returns_text not_json)) bearer_get
              (js "How can I make pasta?")) as (_ & H & _).
  - apply bearer_get_passes.
  - discriminate.
  - apply H; reflexivity.
Defined.

Lemma unprintable_prompt_witness :
  handler sample_config (sample_host (returns_text not_json))
          (sample_post unprintable_prompt)
  = {| outcome := Normal (failure_response not_primitive); sent := [] |}.
Proof.
  apply (unprintable_prompt_is_500_without_upstream_call
           sample_config (sample_host (returns_text not_json))
           (sample_post unprintable_prompt) unprintable_prompt).
  - apply sample_post_passes.
  - reflexivity.
  - reflexivity.
  - reflexivity.
Defined.

Lemma null_answer_witness :
  exists r e,
    outcome (handler sample_config (sample_host (returns_text (js "null")))
                     (sample_post (str "How can I make pasta?"))) = Normal r /\
    r = failure_response e /\
    status r = 500%Z /\
    at_path (json r) ["success"] = VBool false /\
    at_path (json r) ["error"] = str "Failed to generate response" /\
    has_own (json r) "data" = false.
Proof.
  apply (null_answer_is_a_server_error
           sample_config (sample_host (returns_text (js "null")))
           (sample_post (str "How can I make pasta?"))
           {| text := js "null"; promptFeedback := VUndefined |}).
  - apply sample_post_returns.
  - reflexivity.
Defined.

Lemma non_object_answer_witness :
  exists r,
    outcome (handler sample_config (sample_host (returns_text (js "[1,2]")))
                     (sample_post (str "How can I make pasta?"))) = Normal r /\
    status r = 200%Z /\
    (forall k, In k answer_fields ->
               at_path (json r) ["data"; k] = field_default k) /\
    at_path (json r) ["data"; "content"] = str "[1,2]" /\
    at_path (json r) ["metadata"; "warning"]
    = str "Missing fields: title, summary, steps".
Proof.
  apply (non_object_answer_gets_every_default
           sample_config (sample_host (returns_text (js "[1,2]")))
           (sample_post (str "How can I make pasta?"))
           {| text := js "[1,2]"; promptFeedback := VUndefined |}
           (VArr [VNum (of_nat 1); VNum (of_nat 2)])).
  - apply sample_post_returns.
  - reflexivity.
  - exact I.
Defined.

Lemma complete_answer_witness :
  exists r,
    outcome served_run = Normal r /\
    status r = 200%Z /\
    at_path (json r) ["data"; "title"] = str "T" /\
    at_path (json r) ["data"; "tips"] = VArr [str "t"] /\
    at_path (json r) ["data"; "difficulty"] = str "extreme" /\
    has_own (at_path (json r) ["data"]) "content" = false.
Proof.
  destruct (complete_answer_is_passed_through
              sample_config (sample_host (returns_text complete_answer))
              (sample_post (str "How can I make pasta?"))
              {| text := complete_answer; promptFeedback := VUndefined |}
              [(js "title", str "T"); (js "summary", str "S");
               (js "steps", VArr [str "a"; str "b"; str "c"]);
               (js "tips", VArr [str "t"]);
               (js "timeEstimate", str "1 minute");
               (js "difficulty", str "extreme")])
    as (r & Hr & Hs & _ & Ht & _ & _ & Htips & _ & Hd & Hc & _).
  - apply sample_post_returns.
  - reflexivity.
  - reflexivity.
  - exists r. repeat split; assumption.
Defined.

Lemma step_count_witness :
  exists r,
    outcome served_run = Normal r /\
    at_path (json r) ["metadata"; "stepCount"] = VNum (of_nat 3).
Proof.
  destruct (step_count_is_the_length_of_steps
              sample_config (sample_host (returns_text complete_answer))
              (sample_post (str "How can I make pasta?"))
              {| text := complete_answer; promptFeedback := VUndefined |}
              [(js "title", str "T"); (js "summary", str "S");
               (js "steps", VArr [str "a"; str "b"; str "c"]);
               (js "tips", VArr [str "t"]);
               (js "timeEstimate", str "1 minute");
               (js "difficulty", str "extreme")])
    as (r & Hr & H & _).
  - apply sample_post_returns.
  - reflexivity.
  - reflexivity.
  - exists r. split; [exact Hr|].
    apply (H [str "a"; str "b"; str "c"]). reflexivity.
Defined.

Lemma bare_object_is_tight : no_backquote bare_object /\ tight bare_object.
Proof.
  split; [|split; reflexivity].
  repeat (constructor; [discriminate|]). constructor.
Defined.

Lemma text_without_backquotes_witness :
  cleanText (js "  not json at all ") = js "not json at all".
Proof.
  rewrite text_without_backquotes_is_only_trimmed; [reflexivity|].
  repeat (constructor; [discriminate|]). constructor.
Defined.

Lemma fence_around_an_answer_witness :
  cleanText (js "```json" ++ LF ++ bare_object ++ LF ++ js "```")
  = bare_object.
Proof.
  destruct bare_object_is_tight as [Hb Ht].
  destruct (fence_around_an_answer_is_transparent
              (sample_host (returns_text not_json)) bare_object Hb Ht)
    as [H _].
  exact H.
Defined.

End Coverage.
